(** * 4D noughts and crosses: the plane enumerator of [main.py]

    A shallow embedding of [main.py]: the lattice [all_points], the two
    coplanarity tests [is_solution_subseq_fast] and [is_solution_subseq],
    the generator [find_planes] and the script that runs it, followed by the
    properties of the specification that were checked against them and by
    further properties of the code.

    Conventions of the embedding:
    - a Python [int] is a [Z]; the entries of the numpy arrays stay within
      a few units, far from the limits of [int64];
    - [np.array([x, y, z, w])] is a record [vec] of four components;
    - a [float64] is a primitive binary64 float of Rocq, with the IEEE 754
      operations numpy performs; [np.dot] on two [float64] arrays is taken
      to add the four products from left to right;
    - a raised [IndexError] is the value [Raise IndexError] of [result];
    - a generator is the run of the events it produces, in order, ended
      normally or by an exception. *)

From Stdlib Require Import String ZArith List Bool Lia Sorted Floats Reals Lra
  DecimalString.
Import ListNotations.
Local Open Scope Z_scope.

(** ** Exceptions *)

Inductive exn : Type := IndexError.

Inductive result (A : Type) : Type :=
| Ok (a : A)
| Raise (e : exn).
Arguments Ok {A} a.
Arguments Raise {A} e.

Definition bind {A B : Type} (r : result A) (k : A -> result B) : result B :=
  match r with
  | Ok a => k a
  | Raise e => Raise e
  end.

Declare Scope result_scope.
Delimit Scope result_scope with result.
Notation "x <- r ;; k" := (bind r (fun x => k))
  (at level 61, r at next level, right associativity) : result_scope.
Local Open Scope result_scope.

(** A list comprehension whose element expression may raise. *)
Fixpoint traverse {A B : Type} (f : A -> result B) (l : list A) : result (list B) :=
  match l with
  | [] => Ok []
  | a :: l' => b <- f a ;; bs <- traverse f l' ;; Ok (b :: bs)
  end.

(** ** Python lists and ranges *)

(** [len(l)]. *)
Definition len {A : Type} (l : list A) : Z := Z.of_nat (length l).

(** [range(a, b)]. *)
Definition range (a b : Z) : list Z :=
  map (fun k => a + Z.of_nat k) (seq 0 (Z.to_nat (b - a))).

(** [l[i]]: a negative subscript counts from the end of the list. *)
Definition getitem {A : Type} (l : list A) (i : Z) : result A :=
  let j := if i <? 0 then i + len l else i in
  if (0 <=? j) && (j <? len l)
  then match nth_error l (Z.to_nat j) with
       | Some a => Ok a
       | None => Raise IndexError
       end
  else Raise IndexError.

(** ** Arrays of four components *)

Record vec (A : Type) : Type := Vec { v0 : A; v1 : A; v2 : A; v3 : A }.
Arguments Vec {A} v0 v1 v2 v3.
Arguments v0 {A} v.
Arguments v1 {A} v.
Arguments v2 {A} v.
Arguments v3 {A} v.

Definition point : Type := vec Z.

Definition vmap2 {A B C : Type} (f : A -> B -> C) (a : vec A) (b : vec B) : vec C :=
  Vec (f (v0 a) (v0 b)) (f (v1 a) (v1 b)) (f (v2 a) (v2 b)) (f (v3 a) (v3 b)).

Definition vmap {A B : Type} (f : A -> B) (a : vec A) : vec B :=
  Vec (f (v0 a)) (f (v1 a)) (f (v2 a)) (f (v3 a)).

(** [a - b], [k * a] and [np.dot(a, b)] on integer arrays. *)
Definition vsub (a b : point) : point := vmap2 Z.sub a b.
Definition vscale (k : Z) (a : point) : point := vmap (Z.mul k) a.
Definition vneg (a : point) : point := vmap Z.opp a.
Definition dot (a b : point) : Z :=
  v0 a * v0 b + v1 a * v1 b + v2 a * v2 b + v3 a * v3 b.

(** [np.array_equal(a, b)]. *)
Definition array_equal (a b : point) : bool :=
  (v0 a =? v0 b) && (v1 a =? v1 b) && (v2 a =? v2 b) && (v3 a =? v3 b).

Definition point_eq_dec (a b : point) : {a = b} + {a <> b}.
Proof. repeat decide equality. Defined.

(** The order of Python tuples on 4-tuples of integers. *)
Definition lex_ltb (a b : point) : bool :=
  (v0 a <? v0 b) || ((v0 a =? v0 b) &&
  ((v1 a <? v1 b) || ((v1 a =? v1 b) &&
  ((v2 a <? v2 b) || ((v2 a =? v2 b) && (v3 a <? v3 b)))))).

Definition lex_lt (a b : point) : Prop := lex_ltb a b = true.

(** ** The lattice (line 3) *)

Definition all_points : list point :=
  flat_map (fun x =>
  flat_map (fun y =>
  flat_map (fun z =>
  map (fun w => Vec x y z w) (range (-1) 2)) (range (-1) 2)) (range (-1) 2)) (range (-1) 2).

(** [all_points[i]]. *)
Definition pointAt (i : Z) : result point := getitem all_points i.

(** [all_points.index(p)]: the first position holding [p]. *)
Fixpoint index_from (p : point) (l : list point) (k : Z) : option Z :=
  match l with
  | [] => None
  | q :: l' => if array_equal q p then Some k else index_from p l' (k + 1)
  end.

Definition indexOf (p : point) : option Z := index_from p all_points 0.

(** ** The fast filter (lines 39-41) *)

(** [len(set(...))] of a list of tuples. *)
Definition distinct_count (l : list point) : Z :=
  len (nodup point_eq_dec l).

(** [(tuple(pts[i] - pts[i-1]) for i in range(1, len(pts)))]. *)
Definition deltas_of (pts : list point) : result (list point) :=
  traverse (fun i => a <- getitem pts i ;; b <- getitem pts (i - 1) ;; Ok (vsub a b))
           (range 1 (len pts)).

Definition is_solution_subseq_fast (pt_idxs : list Z) : result bool :=
  pts <- traverse pointAt pt_idxs ;;
  deltas <- deltas_of pts ;;
  Ok (distinct_count deltas <=? 2).

(** ** The exact test (lines 43-75) *)

(** An [int64] converted to [float64] (exact below 2^53 in magnitude). *)
Definition to_float (z : Z) : float :=
  match z with
  | Z0 => 0%float
  | Zpos _ => PrimFloat.of_uint63 (Uint63.of_Z z)
  | Zneg p => (- PrimFloat.of_uint63 (Uint63.of_Z (Zpos p)))%float
  end.

Definition as_float (a : point) : vec float := vmap to_float a.

(** [a - b], [k * a] and [np.dot(a, b)] on [float64] arrays. *)
Definition fsub (a b : vec float) : vec float := vmap2 PrimFloat.sub a b.
Definition fscale (k : float) (a : vec float) : vec float := vmap (PrimFloat.mul k) a.
Definition fdot (a b : vec float) : float :=
  (v0 a * v0 b + v1 a * v1 b + v2 a * v2 b + v3 a * v3 b)%float.

(** [np.isclose(a, b)] with the default [rtol=1e-05], [atol=1e-08]; a NaN
    or an infinity on the left compares false against a finite [b]. *)
#[warnings="-inexact-float"]
Definition isclose (a b : float) : bool :=
  (abs (a - b) <=? 1e-08 + 1e-05 * abs b)%float.

(** [np.allclose(a, b)]. *)
Definition allclose (a b : vec float) : bool :=
  isclose (v0 a) (v0 b) && isclose (v1 a) (v1 b) &&
  isclose (v2 a) (v2 b) && isclose (v3 a) (v3 b).

(** The condition of line 63 on a candidate for the second basis vector. *)
Definition usable (basis1 p : point) : bool :=
  negb (array_equal p (vneg basis1)) &&
  negb (array_equal p (vscale (-2) basis1)) &&
  negb (array_equal p (vscale 2 basis1)).

(** [p - np.dot(basis1, p)/np.dot(basis1, basis1)*basis1] (lines 69, 71):
    the quotient of the two [int64] dot products is a [float64]. *)
Definition orthogonalise (basis1 p : point) : vec float :=
  fsub (as_float p)
       (fscale (to_float (dot basis1 p) / to_float (dot basis1 basis1))%float
               (as_float basis1)).

(** Lines 71-73 for one point [p]; [basis2] is the orthogonalised one. *)
Definition reduces_to_zero (basis1 : point) (basis2 : vec float) (p : point) : bool :=
  let orthogonalised := orthogonalise basis1 p in
  let orthogonalised :=
    fsub orthogonalised
         (fscale (fdot basis2 orthogonalised / fdot basis2 basis2)%float basis2) in
  allclose orthogonalised (as_float (Vec 0 0 0 0)).

(** Lines 50-54: the points after the first, relative to the first. *)
Definition relative_points (pt_idxs : list Z) : result (list point) :=
  pts <- traverse pointAt pt_idxs ;;
  origin <- getitem pts 0 ;;
  Ok (map (fun p => vsub p origin) (tl pts)).

Definition is_solution_subseq (pt_idxs : list Z) : result bool :=
  if len pt_idxs =? 0 then Ok true else
  pts <- relative_points pt_idxs ;;
  if len pts <? 2 then Ok true else
  basis1 <- getitem pts 0 ;;
  match find (usable basis1) (tl pts) with
  | None => Ok true
  | Some basis2 =>
      let basis2 := orthogonalise basis1 basis2 in
      Ok (forallb (reduces_to_zero basis1 basis2) pts)
  end.

(** ** The generator (lines 80-90) *)

Inductive event : Type :=
| Printed (text : string)
| Yielded (plane : list point).

(** What running a generator to its end produces. *)
Record run : Type := Run { events : list event; raised : option exn }.

Definition done : run := Run [] None.
Definition emit (e : event) : run := Run [e] None.
Definition throw (e : exn) : run := Run [] (Some e).

Definition then_run (r1 r2 : run) : run :=
  match raised r1 with
  | Some _ => r1
  | None => Run (events r1 ++ events r2) (raised r2)
  end.

(** [for a in l: yield from body(a)]. *)
Definition for_each {A : Type} (body : A -> run) : list A -> run :=
  fix go (l : list A) : run :=
    match l with
    | [] => done
    | a :: l' => then_run (body a) (go l')
    end.

Fixpoint find_planes (start_idx : Z) (base : list Z) (remaining : nat) : run :=
  match remaining with
  | S remaining' =>
      match is_solution_subseq_fast base with
      | Raise e => throw e
      | Ok false => done
      | Ok true =>
          for_each (fun i => find_planes (i + 1) (base ++ [i]) remaining')
                   (range start_idx (len all_points - Z.of_nat remaining + 1))
      end
  | O =>
      match is_solution_subseq base with
      | Raise e => throw e
      | Ok false => done
      | Ok true =>
          then_run (emit (Printed "."%string))
                   match traverse pointAt base with
                   | Ok plane => emit (Yielded plane)
                   | Raise e => throw e
                   end
      end
  end.

(** The values a run yields, and the texts it prints. *)
Definition yields (r : run) : list (list point) :=
  flat_map (fun e => match e with Yielded pl => [pl] | Printed _ => [] end) (events r).

Definition printed (r : run) : list string :=
  flat_map (fun e => match e with Printed s => [s] | Yielded _ => [] end) (events r).

(** ** The script (lines 92-102) *)

(** [str(int(x))]: the decimal numeral of an integer. *)
Definition str (z : Z) : string := NilZero.string_of_int (Z.to_int z).

(** The character that ends a [print]. *)
Definition newline : string := String (Ascii.ascii_of_nat 10) EmptyString.

(** What [print(s)] writes. *)
Definition line (s : string) : string := (s ++ newline)%string.

(** What a run has written to the standard output. *)
Definition written (r : run) : string := String.concat "" (printed r).

(** Line 97 for one point. *)
Definition point_line (point : vec Z) : string :=
  line (String.concat " " (map str [v0 point; v1 point; v2 point; v3 point])).

(** Lines 95-98. *)
Definition listing (planes : list (list point)) : string :=
  String.concat ""
    (map (fun plane =>
            (String.concat "" (map point_line plane) ++ line "---------------")%string)
         planes).

(** The condition of line 101. *)
Definition through_origin (plane : list point) : bool :=
  existsb (fun point => array_equal point (Vec 0 0 0 0)) plane.

(** A session of the script: what it wrote, and the exception that ended
    it, if any. *)
Record session : Type := Session { stdout : string; uncaught : option exn }.

(** Lines 92-102, given the run of [find_planes()]. *)
Definition report (r : run) : session :=
  match raised r with
  | Some e => Session (written r) (Some e)
  | None =>
      let planes := yields r in
      let origin_planes := filter through_origin planes in
      Session (written r ++ line (str (len planes)) ++ listing planes ++
               line ("Planes through origin: " ++ str (len origin_planes)))%string
              None
  end.

Definition script : session := report (find_planes 0 [] 9).

(** ** Vocabulary of the specification *)

(** A point index is an integer of [0, 80]. *)
Definition PointIndex (i : Z) : Prop := 0 <= i <= 80.

(** Strictly increasing sequences of integers. *)
Definition increasing (l : list Z) : Prop := StronglySorted Z.lt l.

(** A candidate: strictly increasing point indices. *)
Definition Candidate (c : list Z) : Prop :=
  Forall PointIndex c /\ increasing c.

(** The difference vectors between consecutive points, in order. *)
Fixpoint consecutive_differences (pts : list point) : list point :=
  match pts with
  | a :: (b :: _) as rest => vsub b a :: consecutive_differences rest
  | _ => []
  end.

(** A collection of vectors has at most [n] distinct members when no
    duplicate-free selection of its members is longer than [n]. *)
Definition at_most_distinct (n : nat) (l : list point) : Prop :=
  forall sel, NoDup sel -> incl sel l -> (length sel <= n)%nat.

(** The point of a point index, and the points of a sequence of them. *)
Definition lattice_point (i : Z) : point :=
  nth (Z.to_nat i) all_points (Vec 0 0 0 0).

Definition points_of (c : list Z) : list point := map lattice_point c.

(** The index sequence under a plane. *)
Definition indices_of (plane : list point) : list (option Z) := map indexOf plane.

(** The lexicographic order of index sequences. *)
Fixpoint seq_lt (a b : list Z) : Prop :=
  match a, b with
  | [], [] => False
  | [], _ :: _ => True
  | _ :: _, [] => False
  | x :: a', y :: b' => x < y \/ (x = y /\ seq_lt a' b')
  end.

(** Points of 4-space, and the affine subspaces of dimension at most 2:
    the points [o + a u + c v]. *)
Definition to_real (p : point) : vec R := vmap IZR p.

Definition affine_combination (o u v : vec R) (a c : R) : vec R :=
  Vec (v0 o + a * v0 u + c * v0 v)%R (v1 o + a * v1 u + c * v1 v)%R
      (v2 o + a * v2 u + c * v2 v)%R (v3 o + a * v3 u + c * v3 v)%R.

Definition coplanar (pts : list point) : Prop :=
  exists o u v : vec R,
    forall p, In p pts -> exists a c : R, to_real p = affine_combination o u v a c.

(** ** Auxiliary definitions

    Pure forms of the tests on points, the index-level view of the search,
    and the integer plane test the proofs go through. *)

Fixpoint sortedb (l : list point) : bool :=
  match l with
  | a :: (b :: _) as rest => lex_ltb a b && sortedb rest
  | _ => true
  end.

Definition in_cube (p : point) : Prop :=
  -1 <= v0 p <= 1 /\ -1 <= v1 p <= 1 /\ -1 <= v2 p <= 1 /\ -1 <= v3 p <= 1.

Definition in_cubeb (p : point) : bool :=
  forallb (fun x => (-1 <=? x) && (x <=? 1)) [v0 p; v1 p; v2 p; v3 p].

Definition index_roundtrip (i : Z) : bool :=
  match pointAt i with
  | Ok p => match indexOf p with Some j => j =? i | None => false end
  | Raise _ => false
  end.

Definition delta_at (pts : list point) (i : Z) : point :=
  vsub (nth (Z.to_nat i) pts (Vec 0 0 0 0)) (nth (Z.to_nat (i - 1)) pts (Vec 0 0 0 0)).

(** The filter as a function of the points, once the subscripts are known
    to be in range. *)
Definition few_deltas (pts : list point) : bool :=
  distinct_count (consecutive_differences pts) <=? 2.

(** Lines 55-75 as a function of the relative points. *)
Definition exact_relative (rel : list point) : bool :=
  match rel with
  | basis1 :: (_ :: _) as others =>
      match find (usable basis1) others with
      | None => true
      | Some basis2 =>
          forallb (reduces_to_zero basis1 (orthogonalise basis1 basis2)) rel
      end
  | _ => true
  end.

Definition exact_points (pts : list point) : bool :=
  match pts with
  | [] => true
  | origin :: rest => exact_relative (map (fun p => vsub p origin) rest)
  end.

Definition announce (plane : list point) : list event :=
  [Printed "."%string; Yielded plane].

(** A run is well announced when its events are its yielded planes, each
    preceded by the printing of one dot. *)
Definition announced (r : run) : Prop :=
  events r = flat_map announce (yields r).

(** The index sequences the search accepts, in the order it meets them. *)
Fixpoint accepted (start_idx : Z) (base : list Z) (remaining : nat) : list (list Z) :=
  match remaining with
  | S remaining' =>
      if few_deltas (points_of base)
      then flat_map (fun i => accepted (i + 1) (base ++ [i]) remaining')
                    (range start_idx (len all_points - Z.of_nat remaining + 1))
      else []
  | O => if exact_points (points_of base) then [base] else []
  end.

(** The six 2x2 minors of the rows [b1], [b2]. *)
Record minors : Type := Minors { m01 : Z; m02 : Z; m03 : Z; m12 : Z; m13 : Z; m23 : Z }.

Definition cross (b1 b2 : point) : minors :=
  Minors (v0 b1 * v1 b2 - v1 b1 * v0 b2) (v0 b1 * v2 b2 - v2 b1 * v0 b2)
         (v0 b1 * v3 b2 - v3 b1 * v0 b2) (v1 b1 * v2 b2 - v2 b1 * v1 b2)
         (v1 b1 * v3 b2 - v3 b1 * v1 b2) (v2 b1 * v3 b2 - v3 b1 * v2 b2).

(** [b1] and [b2] are linearly independent. *)
Definition independent (m : minors) : bool :=
  negb ((m01 m =? 0) && (m02 m =? 0) && (m03 m =? 0) &&
        (m12 m =? 0) && (m13 m =? 0) && (m23 m =? 0)).

(** The four 3x3 minors of the rows [b1], [b2], [q] vanish. *)
Definition on_span (m : minors) (q : point) : bool :=
  if v0 q * m12 m - v1 q * m02 m + v2 q * m01 m =? 0 then
  if v0 q * m13 m - v1 q * m03 m + v3 q * m01 m =? 0 then
  if v0 q * m23 m - v2 q * m03 m + v3 q * m02 m =? 0 then
  v1 q * m23 m - v2 q * m13 m + v3 q * m12 m =? 0
  else false else false else false.

(** The suffixes of a list, each with the element before it. *)
Fixpoint tails {A : Type} (l : list A) : list (A * list A) :=
  match l with
  | [] => []
  | a :: l' => (a, l') :: tails l'
  end.

(** What is checked of the points [p0 < p1 < pk] of the lattice, [later]
    being the points after [p1], when [pk - p0] passes line 63:
    [p1 - p0] and [pk - p0] are independent, the second divisor is
    positive, the float test of lines 71-73 agrees with the integer one on
    [p1] and every later point, and the plane holds at most 9 points from
    [p0] on, which pass the fast filter when they are 9. *)
Definition plane_check (p0 p1 : point) (later : list point) (pk : point) : bool :=
  let basis1 := vsub p1 p0 in
  let q := vsub pk p0 in
  if usable basis1 q then
    let m := cross basis1 q in
    let basis2 := orthogonalise basis1 q in
    if independent m then
    if (0 <? fdot basis2 basis2)%float then
    if forallb (fun p => Bool.eqb (reduces_to_zero basis1 basis2 (vsub p p0))
                                  (on_span m (vsub p p0))) (p1 :: later) then
      let plane := p0 :: p1 :: filter (fun p => on_span m (vsub p p0)) later in
      (length plane <? 9)%nat || ((length plane =? 9)%nat && few_deltas plane)
    else false else false else false
  else true.

(** The same of every [p1] after [p0], with the first divisor. *)
Definition pair_check (p0 : point) (entry : point * list point) : bool :=
  let '(p1, after1) := entry in
  (0 <? dot (vsub p1 p0) (vsub p1 p0)) &&
  forallb (plane_check p0 p1 after1) after1.

Definition origin_check (entry : point * list point) : bool :=
  let '(p0, after0) := entry in forallb (pair_check p0) (tails after0).

(** The points of the lattice after the one of index [i]. *)
Definition points_after (i : Z) : list point := skipn (S (Z.to_nat i)) all_points.

Definition lex_check (entry : point * list point) : bool :=
  let '(p0, after0) := entry in forallb (lex_ltb p0) after0.

(** A subscript the lattice accepts, and the index it denotes. *)
Definition Subscript (i : Z) : Prop := -81 <= i <= 80.

Definition denoted (i : Z) : Z := if i <? 0 then i + 81 else i.

(** The first divisor is zero for every pair of equal lattice points; the
    first residual is then not close to zero, for every selected vector. *)
Definition zero_basis_check (p : point) : bool :=
  forallb (fun pk =>
    negb (reduces_to_zero (Vec 0 0 0 0)
                          (orthogonalise (Vec 0 0 0 0) (vsub pk p)) (Vec 0 0 0 0)))
          all_points.

(** What is checked of every index: the components of its point are the
    digits of the index in base 3, less 1; the point of the mirrored index
    is the opposite point; and the position of the point is given back by
    its digits. *)
Definition digits_check (i : Z) : bool :=
  let p := lattice_point i in
  array_equal p (Vec (i / 27 - 1) (i / 9 mod 3 - 1) (i / 3 mod 3 - 1) (i mod 3 - 1)) &&
  array_equal (lattice_point (80 - i)) (vneg p) &&
  (27 * (v0 p + 1) + 9 * (v1 p + 1) + 3 * (v2 p + 1) + (v3 p + 1) =? i).

(** The index sequences of the planes of the lattice, in lexicographic
    order. *)
Definition plane_list : list (list Z) :=
  [[0; 1; 2; 3; 4; 5; 6; 7; 8]; [0; 1; 2; 9; 10; 11; 18; 19; 20];
   [0; 1; 2; 12; 13; 14; 24; 25; 26]; [0; 1; 2; 27; 28; 29; 54; 55; 56];
   [0; 1; 2; 30; 31; 32; 60; 61; 62]; [0; 1; 2; 36; 37; 38; 72; 73; 74];
   [0; 1; 2; 39; 40; 41; 78; 79; 80]; [0; 3; 6; 9; 12; 15; 18; 21; 24];
   [0; 3; 6; 10; 13; 16; 20; 23; 26]; [0; 3; 6; 27; 30; 33; 54; 57; 60];
   [0; 3; 6; 28; 31; 34; 56; 59; 62]; [0; 3; 6; 36; 39; 42; 72; 75; 78];
   [0; 3; 6; 37; 40; 43; 74; 77; 80]; [0; 4; 8; 9; 13; 17; 18; 22; 26];
   [0; 4; 8; 27; 31; 35; 54; 58; 62]; [0; 4; 8; 36; 40; 44; 72; 76; 80];
   [0; 9; 18; 27; 36; 45; 54; 63; 72]; [0; 9; 18; 28; 37; 46; 56; 65; 74];
   [0; 9; 18; 30; 39; 48; 60; 69; 78]; [0; 9; 18; 31; 40; 49; 62; 71; 80];
   [0; 10; 20; 27; 37; 47; 54; 64; 74]; [0; 10; 20; 30; 40; 50; 60; 70; 80];
   [0; 12; 24; 27; 39; 51; 54; 66; 78]; [0; 12; 24; 28; 40; 52; 56; 68; 80];
   [0; 13; 26; 27; 40; 53; 54; 67; 80]; [1; 4; 7; 10; 13; 16; 19; 22; 25];
   [1; 4; 7; 28; 31; 34; 55; 58; 61]; [1; 4; 7; 37; 40; 43; 73; 76; 79];
   [1; 10; 19; 28; 37; 46; 55; 64; 73]; [1; 10; 19; 31; 40; 49; 61; 70; 79];
   [1; 13; 25; 28; 40; 52; 55; 67; 79]; [2; 4; 6; 11; 13; 15; 20; 22; 24];
   [2; 4; 6; 29; 31; 33; 56; 58; 60]; [2; 4; 6; 38; 40; 42; 74; 76; 78];
   [2; 5; 8; 10; 13; 16; 18; 21; 24]; [2; 5; 8; 11; 14; 17; 20; 23; 26];
   [2; 5; 8; 28; 31; 34; 54; 57; 60]; [2; 5; 8; 29; 32; 35; 56; 59; 62];
   [2; 5; 8; 37; 40; 43; 72; 75; 78]; [2; 5; 8; 38; 41; 44; 74; 77; 80];
   [2; 10; 18; 29; 37; 45; 56; 64; 72]; [2; 10; 18; 32; 40; 48; 62; 70; 78];
   [2; 11; 20; 28; 37; 46; 54; 63; 72]; [2; 11; 20; 29; 38; 47; 56; 65; 74];
   [2; 11; 20; 31; 40; 49; 60; 69; 78]; [2; 11; 20; 32; 41; 50; 62; 71; 80];
   [2; 13; 24; 29; 40; 51; 56; 67; 78]; [2; 14; 26; 28; 40; 52; 54; 66; 78];
   [2; 14; 26; 29; 41; 53; 56; 68; 80]; [3; 4; 5; 12; 13; 14; 21; 22; 23];
   [3; 4; 5; 30; 31; 32; 57; 58; 59]; [3; 4; 5; 39; 40; 41; 75; 76; 77];
   [3; 12; 21; 30; 39; 48; 57; 66; 75]; [3; 12; 21; 31; 40; 49; 59; 68; 77];
   [3; 13; 23; 30; 40; 50; 57; 67; 77]; [4; 13; 22; 31; 40; 49; 58; 67; 76];
   [5; 13; 21; 32; 40; 48; 59; 67; 75]; [5; 14; 23; 31; 40; 49; 57; 66; 75];
   [5; 14; 23; 32; 41; 50; 59; 68; 77]; [6; 7; 8; 12; 13; 14; 18; 19; 20];
   [6; 7; 8; 15; 16; 17; 24; 25; 26]; [6; 7; 8; 30; 31; 32; 54; 55; 56];
   [6; 7; 8; 33; 34; 35; 60; 61; 62]; [6; 7; 8; 39; 40; 41; 72; 73; 74];
   [6; 7; 8; 42; 43; 44; 78; 79; 80]; [6; 12; 18; 33; 39; 45; 60; 66; 72];
   [6; 12; 18; 34; 40; 46; 62; 68; 74]; [6; 13; 20; 33; 40; 47; 60; 67; 74];
   [6; 15; 24; 30; 39; 48; 54; 63; 72]; [6; 15; 24; 31; 40; 49; 56; 65; 74];
   [6; 15; 24; 33; 42; 51; 60; 69; 78]; [6; 15; 24; 34; 43; 52; 62; 71; 80];
   [6; 16; 26; 30; 40; 50; 54; 64; 74]; [6; 16; 26; 33; 43; 53; 60; 70; 80];
   [7; 13; 19; 34; 40; 46; 61; 67; 73]; [7; 16; 25; 31; 40; 49; 55; 64; 73];
   [7; 16; 25; 34; 43; 52; 61; 70; 79]; [8; 13; 18; 35; 40; 45; 62; 67; 72];
   [8; 14; 20; 34; 40; 46; 60; 66; 72]; [8; 14; 20; 35; 41; 47; 62; 68; 74];
   [8; 16; 24; 32; 40; 48; 56; 64; 72]; [8; 16; 24; 35; 43; 51; 62; 70; 78];
   [8; 17; 26; 31; 40; 49; 54; 63; 72]; [8; 17; 26; 32; 41; 50; 56; 65; 74];
   [8; 17; 26; 34; 43; 52; 60; 69; 78]; [8; 17; 26; 35; 44; 53; 62; 71; 80];
   [9; 10; 11; 12; 13; 14; 15; 16; 17]; [9; 10; 11; 36; 37; 38; 63; 64; 65];
   [9; 10; 11; 39; 40; 41; 69; 70; 71]; [9; 12; 15; 36; 39; 42; 63; 66; 69];
   [9; 12; 15; 37; 40; 43; 65; 68; 71]; [9; 13; 17; 36; 40; 44; 63; 67; 71];
   [10; 13; 16; 37; 40; 43; 64; 67; 70]; [11; 13; 15; 38; 40; 42; 65; 67; 69];
   [11; 14; 17; 37; 40; 43; 63; 66; 69]; [11; 14; 17; 38; 41; 44; 65; 68; 71];
   [12; 13; 14; 39; 40; 41; 66; 67; 68]; [15; 16; 17; 39; 40; 41; 63; 64; 65];
   [15; 16; 17; 42; 43; 44; 69; 70; 71]; [18; 19; 20; 21; 22; 23; 24; 25; 26];
   [18; 19; 20; 36; 37; 38; 54; 55; 56]; [18; 19; 20; 39; 40; 41; 60; 61; 62];
   [18; 19; 20; 45; 46; 47; 72; 73; 74]; [18; 19; 20; 48; 49; 50; 78; 79; 80];
   [18; 21; 24; 36; 39; 42; 54; 57; 60]; [18; 21; 24; 37; 40; 43; 56; 59; 62];
   [18; 21; 24; 45; 48; 51; 72; 75; 78]; [18; 21; 24; 46; 49; 52; 74; 77; 80];
   [18; 22; 26; 36; 40; 44; 54; 58; 62]; [18; 22; 26; 45; 49; 53; 72; 76; 80];
   [19; 22; 25; 37; 40; 43; 55; 58; 61]; [19; 22; 25; 46; 49; 52; 73; 76; 79];
   [20; 22; 24; 38; 40; 42; 56; 58; 60]; [20; 22; 24; 47; 49; 51; 74; 76; 78];
   [20; 23; 26; 37; 40; 43; 54; 57; 60]; [20; 23; 26; 38; 41; 44; 56; 59; 62];
   [20; 23; 26; 46; 49; 52; 72; 75; 78]; [20; 23; 26; 47; 50; 53; 74; 77; 80];
   [21; 22; 23; 39; 40; 41; 57; 58; 59]; [21; 22; 23; 48; 49; 50; 75; 76; 77];
   [24; 25; 26; 39; 40; 41; 54; 55; 56]; [24; 25; 26; 42; 43; 44; 60; 61; 62];
   [24; 25; 26; 48; 49; 50; 72; 73; 74]; [24; 25; 26; 51; 52; 53; 78; 79; 80];
   [27; 28; 29; 30; 31; 32; 33; 34; 35]; [27; 28; 29; 36; 37; 38; 45; 46; 47];
   [27; 28; 29; 39; 40; 41; 51; 52; 53]; [27; 30; 33; 36; 39; 42; 45; 48; 51];
   [27; 30; 33; 37; 40; 43; 47; 50; 53]; [27; 31; 35; 36; 40; 44; 45; 49; 53];
   [28; 31; 34; 37; 40; 43; 46; 49; 52]; [29; 31; 33; 38; 40; 42; 47; 49; 51];
   [29; 32; 35; 37; 40; 43; 45; 48; 51]; [29; 32; 35; 38; 41; 44; 47; 50; 53];
   [30; 31; 32; 39; 40; 41; 48; 49; 50]; [33; 34; 35; 39; 40; 41; 45; 46; 47];
   [33; 34; 35; 42; 43; 44; 51; 52; 53]; [36; 37; 38; 39; 40; 41; 42; 43; 44];
   [45; 46; 47; 48; 49; 50; 51; 52; 53]; [54; 55; 56; 57; 58; 59; 60; 61; 62];
   [54; 55; 56; 63; 64; 65; 72; 73; 74]; [54; 55; 56; 66; 67; 68; 78; 79; 80];
   [54; 57; 60; 63; 66; 69; 72; 75; 78]; [54; 57; 60; 64; 67; 70; 74; 77; 80];
   [54; 58; 62; 63; 67; 71; 72; 76; 80]; [55; 58; 61; 64; 67; 70; 73; 76; 79];
   [56; 58; 60; 65; 67; 69; 74; 76; 78]; [56; 59; 62; 64; 67; 70; 72; 75; 78];
   [56; 59; 62; 65; 68; 71; 74; 77; 80]; [57; 58; 59; 66; 67; 68; 75; 76; 77];
   [60; 61; 62; 66; 67; 68; 72; 73; 74]; [60; 61; 62; 69; 70; 71; 78; 79; 80];
   [63; 64; 65; 66; 67; 68; 69; 70; 71]; [72; 73; 74; 75; 76; 77; 78; 79; 80]].

(** Equality of lists of points. *)
Fixpoint points_eqb (a b : list point) : bool :=
  match a, b with
  | [], [] => true
  | p :: a', q :: b' => array_equal p q && points_eqb a' b'
  | _, _ => false
  end.

(** What is checked of the points [p0 < p1 < pk], [later] being the points
    after [p1], when [pk - p0] passes line 63: if the plane through them
    holds 9 points from [p0] on, these are the points of a known sequence. *)
Definition triple_listed (known : list (list point)) (p0 p1 : point)
           (later : list point) (pk : point) : bool :=
  let basis1 := vsub p1 p0 in
  let q := vsub pk p0 in
  if usable basis1 q then
    let m := cross basis1 q in
    let plane := p0 :: p1 :: filter (fun p => on_span m (vsub p p0)) later in
    if (length plane =? 9)%nat then existsb (points_eqb plane) known else true
  else true.

Definition pair_listed (known : list (list point)) (p0 : point)
           (entry : point * list point) : bool :=
  let '(p1, after1) := entry in forallb (triple_listed known p0 p1 after1) after1.

Definition origin_listed (known : list (list point)) (entry : point * list point) : bool :=
  let '(p0, after0) := entry in forallb (pair_listed known p0) (tails after0).

(** Decision of [Candidate], and of the order of index sequences. *)
Fixpoint increasingb (l : list Z) : bool :=
  match l with
  | a :: (b :: _) as rest => (a <? b) && increasingb rest
  | _ => true
  end.

Definition candidate_check (s : list Z) : bool :=
  forallb (fun i => (0 <=? i) && (i <=? 80)) s && increasingb s.

Fixpoint seq_ltb (a b : list Z) : bool :=
  match a, b with
  | [], [] => false
  | [], _ :: _ => true
  | _ :: _, [] => false
  | x :: a', y :: b' => (x <? y) || ((x =? y) && seq_ltb a' b')
  end.

Fixpoint seqs_sortedb (l : list (list Z)) : bool :=
  match l with
  | a :: (b :: _) as rest => seq_ltb a b && seqs_sortedb rest
  | _ => true
  end.

(** * Proofs *)

(** ** Sample evaluations *)

Example pointAt_first : pointAt 0 = Ok (Vec (-1) (-1) (-1) (-1)).
Proof. reflexivity. Qed.

Example pointAt_origin : pointAt 40 = Ok (Vec 0 0 0 0).
Proof. reflexivity. Qed.

Example fast_accepts_first_plane :
  is_solution_subseq_fast [0; 1; 2; 3; 4; 5; 6; 7; 8] = Ok true.
Proof. vm_compute. reflexivity. Qed.

Example fast_raises_out_of_range : is_solution_subseq_fast [0; 81] = Raise IndexError.
Proof. vm_compute. reflexivity. Qed.

Example exact_accepts_first_plane :
  is_solution_subseq [0; 1; 2; 3; 4; 5; 6; 7; 8] = Ok true.
Proof. vm_compute. reflexivity. Qed.

(** The last point of the first plane replaced by the far corner. *)
Example exact_rejects_perturbed_plane :
  is_solution_subseq [0; 1; 2; 3; 4; 5; 6; 7; 80] = Ok false.
Proof. vm_compute. reflexivity. Qed.

(** Nine points whose fourth coordinate is -1, spanning three dimensions. *)
Example exact_rejects_fixed_fourth_coordinate :
  is_solution_subseq [0; 3; 6; 9; 12; 15; 18; 21; 27] = Ok false.
Proof. vm_compute. reflexivity. Qed.

(** The degenerate input [0, 0, 1], not a candidate: [basis1] is the zero
    vector, the quotients are NaN and the answer is false. *)
Example exact_on_repeated_index : is_solution_subseq [0; 0; 1] = Ok false.
Proof. vm_compute. reflexivity. Qed.

Example find_planes_leaf :
  find_planes 9 [0; 1; 2; 3; 4; 5; 6; 7; 8] 0 =
  Run [Printed "."%string; Yielded (points_of [0; 1; 2; 3; 4; 5; 6; 7; 8])] None.
Proof. vm_compute. reflexivity. Qed.

Example find_planes_pruned : find_planes 7 [0; 1; 3; 6] 5 = done.
Proof. vm_compute. reflexivity. Qed.

(** ** Results and list comprehensions *)

Lemma traverse_map {A B : Type} (f : A -> result B) (g : A -> B) (l : list A) :
  (forall a, In a l -> f a = Ok (g a)) -> traverse f l = Ok (map g l).
Proof.
  induction l as [|a l IH]; intros H; cbn; [reflexivity|].
  rewrite (H a (or_introl eq_refl)); cbn.
  rewrite IH by (intros b Hb; apply H; right; exact Hb).
  reflexivity.
Qed.

(** ** Ranges and subscripts *)

Lemma range_In (a b i : Z) : In i (range a b) <-> a <= i < b.
Proof.
  unfold range. rewrite in_map_iff. split.
  - intros (k & <- & Hk). apply in_seq in Hk. lia.
  - intros H. exists (Z.to_nat (i - a)). split; [lia|]. apply in_seq. lia.
Qed.

Lemma range_forallb (P : Z -> bool) (a b : Z) :
  forallb P (range a b) = true -> forall i, a <= i < b -> P i = true.
Proof.
  intros H i Hi. rewrite forallb_forall in H. apply H, range_In, Hi.
Qed.

Lemma range_cons (a b : Z) : a < b -> range a b = a :: range (a + 1) b.
Proof.
  intros H. unfold range.
  replace (Z.to_nat (b - a)) with (S (Z.to_nat (b - (a + 1)))) by lia.
  cbn [seq map]. f_equal; [lia|].
  rewrite <- seq_shift, map_map. apply map_ext. intros k. lia.
Qed.

Lemma getitem_nth {A : Type} (l : list A) (i : Z) (d : A) :
  0 <= i < len l -> getitem l i = Ok (nth (Z.to_nat i) l d).
Proof.
  intros H. unfold getitem.
  replace (i <? 0) with false by lia.
  replace ((0 <=? i) && (i <? len l)) with true by lia.
  unfold len in H.
  rewrite (nth_error_nth' l d) by lia. reflexivity.
Qed.

Lemma getitem_from_end {A : Type} (l : list A) (i : Z) (d : A) :
  - len l <= i < 0 -> getitem l i = Ok (nth (Z.to_nat (i + len l)) l d).
Proof.
  intros H. unfold getitem.
  replace (i <? 0) with true by lia.
  replace ((0 <=? i + len l) && (i + len l <? len l)) with true by lia.
  unfold len in *.
  rewrite (nth_error_nth' l d) by lia. reflexivity.
Qed.

Lemma getitem_out_of_range {A : Type} (l : list A) (i : Z) :
  i < - len l \/ len l <= i -> getitem l i = Raise IndexError.
Proof.
  intros H. unfold getitem. unfold len in *.
  destruct (i <? 0) eqn:E.
  - replace ((0 <=? i + Z.of_nat (length l)) && (i + Z.of_nat (length l) <? Z.of_nat (length l)))
      with false by lia. reflexivity.
  - replace ((0 <=? i) && (i <? Z.of_nat (length l))) with false by lia. reflexivity.
Qed.

(** ** The lattice *)

Lemma all_points_len : len all_points = 81.
Proof. reflexivity. Qed.

Lemma pointAt_index (i : Z) :
  PointIndex i -> pointAt i = Ok (lattice_point i).
Proof.
  intros H. apply getitem_nth. rewrite all_points_len. unfold PointIndex in H. lia.
Qed.

Lemma traverse_pointAt (c : list Z) :
  Forall PointIndex c -> traverse pointAt c = Ok (points_of c).
Proof.
  intros H. apply traverse_map. intros i Hi.
  apply pointAt_index. rewrite Forall_forall in H. apply H, Hi.
Qed.

Lemma lex_lt_trans (a b c : point) : lex_lt a b -> lex_lt b c -> lex_lt a c.
Proof. unfold lex_lt, lex_ltb. lia. Qed.

Lemma lex_lt_irrefl (a : point) : ~ lex_lt a a.
Proof. unfold lex_lt, lex_ltb. lia. Qed.

Lemma array_equal_eq (a b : point) : array_equal a b = true <-> a = b.
Proof.
  destruct a, b. unfold array_equal; cbn. split.
  - intros H. f_equal; lia.
  - intros H. injection H as -> -> -> ->. lia.
Qed.

Lemma sortedb_sorted (l : list point) : sortedb l = true -> StronglySorted lex_lt l.
Proof.
  intros H. apply Sorted_StronglySorted.
  - intros a b c. apply lex_lt_trans.
  - induction l as [|a [|b l] IH]; constructor.
    + constructor.
    + constructor.
    + apply IH. cbn in H. apply andb_prop in H. apply H.
    + constructor. cbn in H. apply andb_prop in H. apply H.
Qed.

Lemma all_points_sorted : StronglySorted lex_lt all_points.
Proof. apply sortedb_sorted. vm_compute. reflexivity. Qed.

Lemma all_points_in_cube (p : point) : In p all_points -> in_cube p.
Proof.
  assert (H : forallb in_cubeb all_points = true) by (vm_compute; reflexivity).
  rewrite forallb_forall in H. intros Hp. specialize (H p Hp).
  unfold in_cubeb in H. cbn in H. unfold in_cube. lia.
Qed.

Lemma in_cube_cases (x : Z) : -1 <= x <= 1 -> x = -1 \/ x = 0 \/ x = 1.
Proof. lia. Qed.

Lemma in_cube_once (p : point) :
  in_cube p -> count_occ point_eq_dec all_points p = 1%nat.
Proof.
  destruct p as [a b c d]. unfold in_cube; cbn.
  intros (Ha & Hb & Hc & Hd).
  apply in_cube_cases in Ha, Hb, Hc, Hd.
  destruct Ha as [->|[->| ->]], Hb as [->|[->| ->]],
           Hc as [->|[->| ->]], Hd as [->|[->| ->]]; vm_compute; reflexivity.
Qed.

(** C7: the lattice holds 81 points, each with its four components in
    {-1, 0, 1}; every element of {-1, 0, 1}^4 occurs exactly once; the list
    is in strict lexicographic order; and looking up the point of an index
    of [0, 80] and then its position gives the index back. *)
Theorem all_points_lattice :
  len all_points = 81 /\
  (forall p, In p all_points -> in_cube p) /\
  (forall p, in_cube p -> count_occ point_eq_dec all_points p = 1%nat) /\
  StronglySorted lex_lt all_points /\
  (forall i, PointIndex i -> exists p, pointAt i = Ok p /\ indexOf p = Some i).
Proof.
  split; [reflexivity|].
  split; [exact all_points_in_cube|].
  split; [exact in_cube_once|].
  split; [exact all_points_sorted|].
  intros i Hi.
  assert (H : forallb index_roundtrip (range 0 81) = true) by (vm_compute; reflexivity).
  pose proof (range_forallb _ _ _ H i) as Hr.
  unfold PointIndex in Hi. specialize (Hr ltac:(lia)).
  unfold index_roundtrip in Hr.
  destruct (pointAt i) as [p|]; [|discriminate].
  exists p. split; [reflexivity|].
  destruct (indexOf p) as [j|]; [|discriminate].
  f_equal. lia.
Qed.

Lemma all_points_lattice_witness :
  PointIndex 40 /\ exists p, pointAt 40 = Ok p /\ indexOf p = Some 40.
Proof.
  split; [unfold PointIndex; lia|].
  apply (proj2 (proj2 (proj2 (proj2 all_points_lattice)))).
  unfold PointIndex; lia.
Defined.

(** C8, as the code has it: a subscript of [-81, 80] finds a point, a
    negative one counting from the end of the lattice; a subscript outside
    [-81, 80] raises [IndexError]. *)
Theorem pointAt_total_on_subscripts (i : Z) :
  (0 <= i <= 80 -> pointAt i = Ok (lattice_point i)) /\
  (-81 <= i < 0 -> pointAt i = Ok (lattice_point (i + 81))) /\
  (i < -81 \/ 80 < i -> pointAt i = Raise IndexError).
Proof.
  split; [|split]; intros H.
  - apply pointAt_index, H.
  - apply (getitem_from_end all_points i). rewrite all_points_len. lia.
  - apply getitem_out_of_range. rewrite all_points_len. lia.
Qed.

Lemma pointAt_total_on_subscripts_witness :
  pointAt 80 = Ok (Vec 1 1 1 1) /\ pointAt (-81) = Ok (Vec (-1) (-1) (-1) (-1)) /\
  pointAt 81 = Raise IndexError.
Proof.
  destruct (pointAt_total_on_subscripts 80) as (H1 & _ & _).
  destruct (pointAt_total_on_subscripts (-81)) as (_ & H2 & _).
  destruct (pointAt_total_on_subscripts 81) as (_ & _ & H3).
  split; [|split].
  - rewrite H1 by lia. reflexivity.
  - rewrite H2 by lia. reflexivity.
  - apply H3. lia.
Defined.

(** C8 as stated fails: the negative subscript -1 does not raise, it finds
    the last point of the lattice. *)
Lemma pointAt_negative_subscript :
  -1 < 0 /\ pointAt (-1) = Ok (Vec 1 1 1 1) /\ pointAt (-1) <> Raise IndexError.
Proof.
  split; [lia|]. split; [reflexivity|]. discriminate.
Qed.

(** ** The fast filter *)

Lemma range_shift (a b : Z) : range (a + 1) (b + 1) = map (fun i => i + 1) (range a b).
Proof.
  unfold range. rewrite map_map.
  replace (b + 1 - (a + 1)) with (b - a) by lia.
  apply map_ext. intros k. lia.
Qed.

Lemma len_cons {A : Type} (a : A) (l : list A) : len (a :: l) = len l + 1.
Proof. unfold len. cbn [length]. lia. Qed.

Lemma len_nonneg {A : Type} (l : list A) : 0 <= len l.
Proof. unfold len. lia. Qed.

Lemma consecutive_differences_cons (a b : point) (pts : list point) :
  consecutive_differences (a :: b :: pts) = vsub b a :: consecutive_differences (b :: pts).
Proof. reflexivity. Qed.

Lemma delta_at_range (pts : list point) :
  map (delta_at pts) (range 1 (len pts)) = consecutive_differences pts.
Proof.
  induction pts as [|a pts IH]; [reflexivity|].
  destruct pts as [|b pts]; [reflexivity|].
  rewrite len_cons, range_cons by (rewrite len_cons; pose proof (len_nonneg pts); lia).
  rewrite consecutive_differences_cons. cbn [map]. f_equal.
  rewrite range_shift, map_map, <- IH.
  apply map_ext_in. intros i Hi. apply range_In in Hi.
  unfold delta_at.
  replace (Z.to_nat (i + 1)) with (S (Z.to_nat i)) by lia.
  replace (Z.to_nat (i + 1 - 1)) with (S (Z.to_nat (i - 1))) by lia.
  reflexivity.
Qed.

Lemma deltas_of_ok (pts : list point) : deltas_of pts = Ok (consecutive_differences pts).
Proof.
  unfold deltas_of. rewrite <- delta_at_range.
  apply traverse_map. intros i Hi. apply range_In in Hi.
  rewrite (getitem_nth pts i (Vec 0 0 0 0)) by lia.
  rewrite (getitem_nth pts (i - 1) (Vec 0 0 0 0)) by lia.
  reflexivity.
Qed.

Lemma fast_few_deltas (c : list Z) :
  Forall PointIndex c -> is_solution_subseq_fast c = Ok (few_deltas (points_of c)).
Proof.
  intros H. unfold is_solution_subseq_fast.
  rewrite traverse_pointAt by exact H. cbn [bind].
  rewrite deltas_of_ok. reflexivity.
Qed.

Lemma nodup_length_incl (l l' : list point) :
  incl l l' -> (length (nodup point_eq_dec l) <= length (nodup point_eq_dec l'))%nat.
Proof.
  intros H. apply NoDup_incl_length; [apply NoDup_nodup|].
  intros x Hx. apply nodup_In. apply H. apply nodup_In in Hx. exact Hx.
Qed.

Lemma nodup_length_le (l : list point) :
  (length (nodup point_eq_dec l) <= length l)%nat.
Proof.
  apply NoDup_incl_length; [apply NoDup_nodup|].
  intros x Hx. apply nodup_In in Hx. exact Hx.
Qed.

Lemma distinct_count_le (n : nat) (l : list point) :
  distinct_count l <= Z.of_nat n <-> at_most_distinct n l.
Proof.
  unfold distinct_count, len, at_most_distinct. split.
  - intros H sel Hnd Hincl.
    assert (length sel <= length (nodup point_eq_dec l))%nat; [|lia].
    apply NoDup_incl_length; [exact Hnd|].
    intros x Hx. apply nodup_In, Hincl, Hx.
  - intros H.
    assert (length (nodup point_eq_dec l) <= n)%nat; [|lia].
    apply H; [apply NoDup_nodup|].
    intros x Hx. apply nodup_In in Hx. exact Hx.
Qed.

Lemma consecutive_differences_length (pts : list point) :
  length (consecutive_differences pts) = (length pts - 1)%nat.
Proof.
  induction pts as [|a pts IH]; [reflexivity|].
  destruct pts as [|b pts]; [reflexivity|].
  rewrite consecutive_differences_cons. cbn [length] in *. lia.
Qed.

Lemma consecutive_differences_app (pts more : list point) :
  incl (consecutive_differences pts) (consecutive_differences (pts ++ more)).
Proof.
  induction pts as [|a pts IH]; [intros x []|].
  destruct pts as [|b pts]; [intros x []|].
  cbn [app] in *. rewrite !consecutive_differences_cons.
  intros x [<-|Hx]; [left; reflexivity|right; apply IH, Hx].
Qed.

Lemma few_deltas_prefix (pts more : list point) :
  few_deltas (pts ++ more) = true -> few_deltas pts = true.
Proof.
  unfold few_deltas, distinct_count, len. intros H.
  pose proof (nodup_length_incl _ _ (consecutive_differences_app pts more)).
  lia.
Qed.

(** C5: on point indices the filter returns, and returns true exactly when
    the difference vectors between consecutive points have at most 2
    distinct members; with 0 or 1 index there is no difference vector and
    the answer is true. *)
Theorem fast_filter_contract (c : list Z) :
  Forall PointIndex c ->
  (exists b, is_solution_subseq_fast c = Ok b /\
             (b = true <-> at_most_distinct 2 (consecutive_differences (points_of c)))) /\
  ((length c <= 1)%nat ->
   consecutive_differences (points_of c) = [] /\ is_solution_subseq_fast c = Ok true).
Proof.
  intros H. rewrite (fast_few_deltas c H). split.
  - eexists; split; [reflexivity|].
    unfold few_deltas. rewrite <- (distinct_count_le 2). lia.
  - intros Hlen. destruct c as [|i [|j c]]; cbn in Hlen; try lia; split; reflexivity.
Qed.

Lemma fast_filter_contract_witness :
  Forall PointIndex [0; 1; 3; 6] /\
  ((exists b, is_solution_subseq_fast [0; 1; 3; 6] = Ok b /\
              (b = true <->
               at_most_distinct 2 (consecutive_differences (points_of [0; 1; 3; 6])))) /\
   ((length [0; 1; 3; 6] <= 1)%nat ->
    consecutive_differences (points_of [0; 1; 3; 6]) = [] /\
    is_solution_subseq_fast [0; 1; 3; 6] = Ok true)).
Proof.
  assert (H : Forall PointIndex [0; 1; 3; 6])
    by (repeat constructor; unfold PointIndex; lia).
  split; [exact H|]. exact (fast_filter_contract [0; 1; 3; 6] H).
Defined.

(** C3: appending one point index keeps every difference vector of the
    candidate, so a candidate the filter rejects stays rejected. *)
Theorem fast_filter_monotone (c : list Z) (i : Z) :
  Forall PointIndex c -> PointIndex i ->
  incl (consecutive_differences (points_of c))
       (consecutive_differences (points_of (c ++ [i]))) /\
  (is_solution_subseq_fast c = Ok false ->
   is_solution_subseq_fast (c ++ [i]) = Ok false).
Proof.
  intros Hc Hi.
  assert (Hci : Forall PointIndex (c ++ [i]))
    by (apply Forall_app; split; [exact Hc|constructor; [exact Hi|constructor]]).
  unfold points_of at 2. rewrite map_app. fold (points_of c). split.
  - apply consecutive_differences_app.
  - rewrite (fast_few_deltas c Hc), (fast_few_deltas _ Hci).
    unfold points_of at 2. rewrite map_app. fold (points_of c).
    intros H. injection H as H. f_equal.
    destruct (few_deltas (points_of c ++ _)) eqn:E; [|reflexivity].
    apply few_deltas_prefix in E. congruence.
Qed.

Lemma fast_filter_monotone_witness :
  is_solution_subseq_fast [0; 1; 3; 6] = Ok false /\
  is_solution_subseq_fast ([0; 1; 3; 6] ++ [7]) = Ok false.
Proof.
  assert (Hc : Forall PointIndex [0; 1; 3; 6])
    by (repeat constructor; unfold PointIndex; lia).
  assert (Hi : PointIndex 7) by (unfold PointIndex; lia).
  assert (H : is_solution_subseq_fast [0; 1; 3; 6] = Ok false)
    by (vm_compute; reflexivity).
  split; [exact H|].
  exact (proj2 (fast_filter_monotone [0; 1; 3; 6] 7 Hc Hi) H).
Defined.

(** ** The exact test on point indices *)

Lemma relative_points_ok (i : Z) (c : list Z) :
  Forall PointIndex (i :: c) ->
  relative_points (i :: c) = Ok (map (fun p => vsub p (lattice_point i)) (points_of c)).
Proof.
  intros H. unfold relative_points.
  rewrite (traverse_pointAt _ H). cbn [bind points_of map].
  rewrite (getitem_nth _ 0 (Vec 0 0 0 0)) by (unfold len; cbn [length]; lia).
  reflexivity.
Qed.

Lemma exact_exact_points (c : list Z) :
  Forall PointIndex c -> is_solution_subseq c = Ok (exact_points (points_of c)).
Proof.
  intros H. destruct c as [|i c]; [reflexivity|].
  unfold is_solution_subseq.
  replace (len (i :: c) =? 0) with false
    by (rewrite len_cons; pose proof (len_nonneg c); lia).
  rewrite (relative_points_ok i c H). cbn [bind points_of map exact_points].
  fold (points_of c).
  set (rel := map _ (points_of c)).
  destruct rel as [|b1 [|b2 rel]]; try reflexivity.
  replace (len (b1 :: b2 :: rel) <? 2) with false
    by (rewrite !len_cons; pose proof (len_nonneg rel); lia).
  rewrite (getitem_nth _ 0 (Vec 0 0 0 0)) by (unfold len; cbn [length]; lia).
  cbn [bind Z.to_nat nth tl exact_relative].
  destruct (find (usable b1) (b2 :: rel)); reflexivity.
Qed.

Lemma exact_true_traverse (c : list Z) :
  is_solution_subseq c = Ok true -> exists pl, traverse pointAt c = Ok pl.
Proof.
  destruct c as [|i c]; [intros _; exists []; reflexivity|].
  unfold is_solution_subseq, relative_points.
  replace (len (i :: c) =? 0) with false
    by (rewrite len_cons; pose proof (len_nonneg c); lia).
  destruct (traverse pointAt (i :: c)) as [pl|e]; [exists pl; reflexivity|].
  cbn. discriminate.
Qed.

(** ** Runs *)

Lemma for_each_clean {A : Type} (body : A -> run) (ev : A -> list event) (l : list A) :
  (forall a, In a l -> body a = Run (ev a) None) ->
  for_each body l = Run (flat_map ev l) None.
Proof.
  induction l as [|a l IH]; intros H; [reflexivity|].
  cbn [for_each flat_map].
  rewrite (H a (or_introl eq_refl)).
  fold (for_each body). rewrite IH by (intros b Hb; apply H; right; exact Hb).
  reflexivity.
Qed.

Lemma announced_then_run (r1 r2 : run) :
  announced r1 -> announced r2 -> announced (then_run r1 r2).
Proof.
  unfold announced, then_run, yields. intros H1 H2.
  destruct (raised r1); [exact H1|]. cbn [events].
  rewrite flat_map_app, flat_map_app.
  rewrite <- H1, <- H2. reflexivity.
Qed.

Lemma announced_for_each {A : Type} (body : A -> run) (l : list A) :
  (forall a, announced (body a)) -> announced (for_each body l).
Proof.
  intros H. induction l as [|a l IH]; [reflexivity|].
  cbn [for_each]. apply announced_then_run; [apply H|exact IH].
Qed.

(** C9, as the code has it: the generator prints one dot just before each
    plane it yields, and prints nothing else; this holds of every call,
    whether or not an exception ends it. *)
Theorem find_planes_prints_dots (start_idx : Z) (base : list Z) (remaining : nat) :
  events (find_planes start_idx base remaining) =
    flat_map announce (yields (find_planes start_idx base remaining)) /\
  printed (find_planes start_idx base remaining) =
    map (fun _ => "."%string) (yields (find_planes start_idx base remaining)).
Proof.
  assert (H : announced (find_planes start_idx base remaining)).
  { revert start_idx base. induction remaining as [|r IH]; intros start_idx base.
    - cbn [find_planes]. destruct (is_solution_subseq base) as [[|]|e] eqn:E; try reflexivity.
      destruct (exact_true_traverse base E) as [pl ->]. reflexivity.
    - cbn [find_planes]. destruct (is_solution_subseq_fast base) as [[|]|e]; try reflexivity.
      apply announced_for_each. intros i. apply IH. }
  split; [exact H|].
  unfold printed. rewrite H. generalize (yields (find_planes start_idx base remaining)).
  induction l as [|pl l IHl]; [reflexivity|].
  cbn. f_equal. exact IHl.
Qed.

(** ** The search, on point indices *)

Lemma flat_map_nested {A B C : Type} (f : A -> list B) (g : B -> list C) (l : list A) :
  flat_map g (flat_map f l) = flat_map (fun a => flat_map g (f a)) l.
Proof.
  induction l as [|a l IH]; [reflexivity|].
  cbn [flat_map]. rewrite flat_map_app, IH. reflexivity.
Qed.

Lemma Forall_PointIndex_snoc (base : list Z) (i : Z) :
  Forall PointIndex base -> PointIndex i -> Forall PointIndex (base ++ [i]).
Proof.
  intros Hb Hi. apply Forall_app. split; [exact Hb|]. constructor; [exact Hi|constructor].
Qed.

Lemma range_PointIndex (start_idx : Z) (remaining : nat) (i : Z) :
  0 <= start_idx ->
  In i (range start_idx (len all_points - Z.of_nat (S remaining) + 1)) ->
  start_idx <= i <= 80 - Z.of_nat remaining /\ PointIndex i.
Proof.
  intros Hs Hi. apply range_In in Hi. rewrite all_points_len in Hi.
  unfold PointIndex. lia.
Qed.

Lemma find_planes_accepted (remaining : nat) :
  forall start_idx base,
    Forall PointIndex base -> 0 <= start_idx ->
    find_planes start_idx base remaining =
    Run (flat_map (fun s => announce (points_of s)) (accepted start_idx base remaining)) None.
Proof.
  induction remaining as [|r IH]; intros start_idx base Hb Hs.
  - cbn [find_planes accepted].
    rewrite (exact_exact_points base Hb), (traverse_pointAt base Hb).
    destruct (exact_points (points_of base)); reflexivity.
  - cbn [find_planes accepted].
    rewrite (fast_few_deltas base Hb).
    destruct (few_deltas (points_of base)); [|reflexivity].
    rewrite flat_map_nested. apply for_each_clean.
    intros i Hi. destruct (range_PointIndex _ _ _ Hs Hi) as [Hr Hp].
    apply IH; [apply Forall_PointIndex_snoc; assumption|lia].
Qed.

Lemma yields_accepted (start_idx : Z) (base : list Z) (remaining : nat) :
  Forall PointIndex base -> 0 <= start_idx ->
  yields (find_planes start_idx base remaining) =
  map points_of (accepted start_idx base remaining).
Proof.
  intros Hb Hs. rewrite (find_planes_accepted remaining start_idx base Hb Hs).
  unfold yields. cbn [events].
  induction (accepted start_idx base remaining) as [|s l IHl]; [reflexivity|].
  cbn. f_equal. exact IHl.
Qed.

Lemma accepted_shape (remaining : nat) :
  forall start_idx base s,
    0 <= start_idx ->
    In s (accepted start_idx base remaining) ->
    exists ext, s = base ++ ext /\ length ext = remaining /\ increasing ext /\
                Forall (fun i => start_idx <= i <= 80) ext.
Proof.
  induction remaining as [|r IH]; intros start_idx base s Hs Hin.
  - cbn [accepted] in Hin. destruct (exact_points (points_of base)); [|destruct Hin].
    destruct Hin as [<-|[]]. exists []. rewrite app_nil_r.
    repeat split; constructor.
  - cbn [accepted] in Hin. destruct (few_deltas (points_of base)); [|destruct Hin].
    apply in_flat_map in Hin. destruct Hin as (i & Hi & Hin).
    destruct (range_PointIndex _ _ _ Hs Hi) as [Hr Hp].
    destruct (IH (i + 1) (base ++ [i]) s ltac:(lia) Hin) as (ext & -> & Hlen & Hinc & Hall).
    exists (i :: ext). rewrite <- app_assoc. cbn [app length].
    repeat split; try lia.
    + constructor; [exact Hinc|].
      eapply Forall_impl; [|exact Hall]. cbn. intros; lia.
    + constructor; [lia|].
      eapply Forall_impl; [|exact Hall]. cbn. intros; lia.
Qed.

Lemma accepted_exact (remaining : nat) :
  forall start_idx base s,
    In s (accepted start_idx base remaining) -> exact_points (points_of s) = true.
Proof.
  induction remaining as [|r IH]; intros start_idx base s Hin; cbn [accepted] in Hin.
  - destruct (exact_points (points_of base)) eqn:E; [|destruct Hin].
    destruct Hin as [<-|[]]. exact E.
  - destruct (few_deltas (points_of base)); [|destruct Hin].
    apply in_flat_map in Hin. destruct Hin as (i & _ & Hin).
    eapply IH, Hin.
Qed.

Lemma increasing_room (i : Z) (ext : list Z) :
  increasing (i :: ext) -> Forall (fun j => j <= 80) (i :: ext) ->
  i + Z.of_nat (length ext) <= 80.
Proof.
  revert i. induction ext as [|j ext IH]; intros i Hinc Hall.
  - inversion Hall; subst. cbn. lia.
  - inversion Hinc as [|? ? Hinc' Hlt]; subst.
    inversion Hall as [|? ? _ Hall']; subst.
    specialize (IH j Hinc' Hall').
    inversion Hlt; subst. cbn [length]. lia.
Qed.

Lemma points_of_app (a b : list Z) : points_of (a ++ b) = points_of a ++ points_of b.
Proof. apply map_app. Qed.

Lemma accepted_complete (remaining : nat) :
  forall start_idx base ext,
    length ext = remaining -> increasing ext ->
    Forall (fun i => start_idx <= i <= 80) ext ->
    few_deltas (points_of (base ++ ext)) = true ->
    exact_points (points_of (base ++ ext)) = true ->
    In (base ++ ext) (accepted start_idx base remaining).
Proof.
  induction remaining as [|r IH]; intros start_idx base ext Hlen Hinc Hall Hfew Hex.
  - destruct ext; [|discriminate]. rewrite app_nil_r in *.
    cbn [accepted]. rewrite Hex. left; reflexivity.
  - destruct ext as [|i ext]; [discriminate|].
    cbn [accepted].
    assert (Hbase : few_deltas (points_of base) = true).
    { rewrite points_of_app in Hfew. eapply few_deltas_prefix, Hfew. }
    rewrite Hbase. apply in_flat_map. exists i.
    inversion Hall as [|? ? Hi Hall']; subst.
    inversion Hinc as [|? ? Hinc' Hlt]; subst.
    assert (Hroom : i + Z.of_nat (length ext) <= 80).
    { apply increasing_room; [exact Hinc|].
      eapply Forall_impl; [|exact Hall]. cbn; intros; lia. }
    injection Hlen as Hlen. split.
    + apply range_In. rewrite all_points_len. lia.
    + replace (base ++ i :: ext) with ((base ++ [i]) ++ ext) in *
        by (rewrite <- app_assoc; reflexivity).
      apply IH; try assumption.
      rewrite Forall_forall in *. intros j Hj.
      specialize (Hall' j Hj). specialize (Hlt j Hj). lia.
Qed.

(** ** The order of the output *)

Lemma range_sorted (a b : Z) : increasing (range a b).
Proof.
  unfold increasing, range.
  generalize (Z.to_nat (b - a)) as n. intros n. revert a.
  induction n as [|n IH]; intros a; [constructor|].
  cbn [seq map]. constructor.
  - rewrite <- seq_shift, map_map.
    rewrite (map_ext _ (fun k => (a + 1) + Z.of_nat k)) by (intros; lia).
    apply IH.
  - apply Forall_forall. intros x Hx. apply in_map_iff in Hx.
    destruct Hx as (k & <- & Hk). apply in_seq in Hk. lia.
Qed.

Lemma seq_lt_irrefl (a : list Z) : ~ seq_lt a a.
Proof. induction a as [|x a IH]; cbn; [tauto|]. intros [H|[_ H]]; [lia|auto]. Qed.

Lemma seq_lt_trans (a b c : list Z) : seq_lt a b -> seq_lt b c -> seq_lt a c.
Proof.
  revert b c. induction a as [|x a IH]; intros [|y b] [|z c]; cbn; try tauto.
  intros [H1|[-> H1]] [H2|[-> H2]]; try (left; lia).
  right. split; [reflexivity|]. eapply IH; eassumption.
Qed.

Lemma seq_lt_common_prefix (p a b : list Z) : seq_lt a b -> seq_lt (p ++ a) (p ++ b).
Proof.
  intros H. induction p as [|x p IH]; [exact H|]. cbn. right. split; [reflexivity|exact IH].
Qed.

Lemma StronglySorted_app {A : Type} (R : A -> A -> Prop) (l1 l2 : list A) :
  StronglySorted R l1 -> StronglySorted R l2 ->
  (forall x y, In x l1 -> In y l2 -> R x y) ->
  StronglySorted R (l1 ++ l2).
Proof.
  intros H1 H2 H. induction H1 as [|x l1 H1 IH Hx]; [exact H2|].
  cbn. constructor.
  - apply IH. intros a b Ha Hb. apply H; [right; exact Ha|exact Hb].
  - apply Forall_app. split; [exact Hx|].
    apply Forall_forall. intros y Hy. apply H; [left; reflexivity|exact Hy].
Qed.

Lemma StronglySorted_NoDup {A : Type} (R : A -> A -> Prop) (l : list A) :
  (forall a, ~ R a a) -> StronglySorted R l -> NoDup l.
Proof.
  intros Hirr H. induction H as [|x l H IH Hx]; constructor; [|exact IH].
  intros Hin. rewrite Forall_forall in Hx. exact (Hirr x (Hx x Hin)).
Qed.

Lemma accepted_sorted (remaining : nat) :
  forall start_idx base, 0 <= start_idx ->
    StronglySorted seq_lt (accepted start_idx base remaining).
Proof.
  induction remaining as [|r IH]; intros start_idx base Hs; cbn [accepted].
  - destruct (exact_points (points_of base)); repeat constructor.
  - destruct (few_deltas (points_of base)); [|constructor].
    pose proof (range_sorted start_idx (len all_points - Z.of_nat (S r) + 1)) as Hsorted.
    assert (Hge : Forall (fun i => 0 <= i)
                         (range start_idx (len all_points - Z.of_nat (S r) + 1))).
    { apply Forall_forall. intros i Hi. apply range_In in Hi. lia. }
    induction Hsorted as [|i l Hl IHl Hi]; [constructor|].
    inversion Hge as [|? ? Hi0 Hge']; subst.
    cbn [flat_map]. apply StronglySorted_app.
    + apply IH. lia.
    + apply IHl, Hge'.
    + intros x y Hx Hy. apply in_flat_map in Hy. destruct Hy as (j & Hj & Hy).
      apply accepted_shape in Hx; [|lia]. destruct Hx as (ex & -> & _).
      rewrite Forall_forall in Hi, Hge'.
      apply accepted_shape in Hy; [|specialize (Hge' j Hj); lia].
      destruct Hy as (ey & -> & _).
      rewrite <- !app_assoc. apply seq_lt_common_prefix. cbn. left. apply Hi, Hj.
Qed.

Lemma indexOf_lattice_point (i : Z) :
  PointIndex i -> indexOf (lattice_point i) = Some i.
Proof.
  intros Hi.
  assert (H : forallb index_roundtrip (range 0 81) = true) by (vm_compute; reflexivity).
  pose proof (range_forallb _ _ _ H i) as Hr.
  unfold PointIndex in Hi. specialize (Hr ltac:(lia)).
  unfold index_roundtrip in Hr. rewrite (pointAt_index i Hi) in Hr.
  destruct (indexOf _) as [j|]; [|discriminate]. f_equal. lia.
Qed.

Lemma indices_of_points_of (s : list Z) :
  Forall PointIndex s -> indices_of (points_of s) = map Some s.
Proof.
  intros H. unfold indices_of, points_of. rewrite map_map.
  apply map_ext_in. intros i Hi. apply indexOf_lattice_point.
  rewrite Forall_forall in H. apply H, Hi.
Qed.

Lemma map_Some_injective {A : Type} (a b : list A) : map Some a = map Some b -> a = b.
Proof.
  revert b. induction a as [|x a IH]; intros [|y b] Hab; try discriminate Hab; [reflexivity|].
  cbn in Hab. injection Hab as -> Hab. f_equal. apply IH, Hab.
Qed.

Lemma accepted_root_candidates :
  Forall (fun s => increasing s /\ Forall PointIndex s /\ length s = 9%nat)
         (accepted 0 [] 9).
Proof.
  apply Forall_forall. intros s Hs.
  apply accepted_shape in Hs; [|lia].
  destruct Hs as (ext & -> & Hlen & Hinc & Hall). cbn [app].
  repeat split; assumption.
Qed.

(** C6: the planes yielded by [find_planes()] are those of a list of index
    sequences, found again from the planes by looking every point up in
    the lattice; these sequences are pairwise distinct, each is strictly
    increasing with its 9 indices in [0, 80], and they come in strictly
    increasing lexicographic order. The planes are pairwise distinct too. *)
Theorem find_planes_output_order :
  exists seqs : list (list Z),
    yields (find_planes 0 [] 9) = map points_of seqs /\
    map indices_of (yields (find_planes 0 [] 9)) = map (map Some) seqs /\
    NoDup seqs /\
    NoDup (yields (find_planes 0 [] 9)) /\
    Forall (fun s => increasing s /\ Forall PointIndex s /\ length s = 9%nat) seqs /\
    StronglySorted seq_lt seqs.
Proof.
  exists (accepted 0 [] 9).
  assert (Hy : yields (find_planes 0 [] 9) = map points_of (accepted 0 [] 9))
    by (apply yields_accepted; [constructor|lia]).
  assert (Hsorted : StronglySorted seq_lt (accepted 0 [] 9))
    by (apply accepted_sorted; lia).
  assert (Hnd : NoDup (accepted 0 [] 9))
    by (eapply StronglySorted_NoDup; [exact seq_lt_irrefl|exact Hsorted]).
  assert (Hidx : map indices_of (yields (find_planes 0 [] 9)) =
                 map (map Some) (accepted 0 [] 9)).
  { rewrite Hy, map_map. apply map_ext_in. intros s Hs.
    apply indices_of_points_of.
    pose proof accepted_root_candidates as Hc. rewrite Forall_forall in Hc.
    apply (Hc s Hs). }
  split; [exact Hy|]. split; [exact Hidx|]. split; [exact Hnd|].
  split; [|split; [exact accepted_root_candidates|exact Hsorted]].
  apply (NoDup_map_inv indices_of). rewrite Hidx.
  apply NoDup_map_NoDup_ForallPairs; [|exact Hnd].
  intros a b _ _. apply map_Some_injective.
Qed.

(** C9 as stated fails: the run of [find_planes()] prints; its first
    accepted plane, of the indices 0 to 8, is announced by a dot. *)
Lemma find_planes_prints :
  In (Printed "."%string) (events (find_planes 0 [] 9)) /\
  In "."%string (printed (find_planes 0 [] 9)).
Proof.
  assert (Hin : In ([] ++ [0; 1; 2; 3; 4; 5; 6; 7; 8]) (accepted 0 [] 9)).
  { apply accepted_complete.
    - reflexivity.
    - repeat (constructor; [|repeat (constructor; try lia)]). constructor.
    - repeat (constructor; [lia|]). constructor.
    - vm_compute. reflexivity.
    - vm_compute. reflexivity. }
  rewrite (find_planes_accepted 9 0 []) by (try constructor; lia).
  unfold printed. cbn [events]. split.
  - apply (proj2 (in_flat_map _ _ _)). eexists. split; [exact Hin|]. left. reflexivity.
  - apply (proj2 (in_flat_map _ _ _)). exists (Printed "."%string).
    split; [|left; reflexivity].
    apply (proj2 (in_flat_map _ _ _)). eexists. split; [exact Hin|]. left. reflexivity.
Qed.

(** C10: on at most 3 point indices the filter returns true, so a call of
    the search with a base of at most 3 indices always enters its loop;
    a base of 4 indices can be abandoned, as [0, 1, 3, 6] is. *)
Theorem no_pruning_before_depth_4 :
  (forall c, Forall PointIndex c -> (length c <= 3)%nat ->
             is_solution_subseq_fast c = Ok true) /\
  (forall start_idx base remaining,
      Forall PointIndex base -> (length base <= 3)%nat ->
      find_planes start_idx base (S remaining) =
      for_each (fun i => find_planes (i + 1) (base ++ [i]) remaining)
               (range start_idx (len all_points - Z.of_nat (S remaining) + 1))) /\
  (Candidate [0; 1; 3; 6] /\
   is_solution_subseq_fast [0; 1; 3; 6] = Ok false /\
   forall start_idx remaining, find_planes start_idx [0; 1; 3; 6] (S remaining) = done).
Proof.
  assert (H : forall c, Forall PointIndex c -> (length c <= 3)%nat ->
                        is_solution_subseq_fast c = Ok true).
  { intros c Hc Hlen. rewrite (fast_few_deltas c Hc). f_equal.
    unfold few_deltas, distinct_count, len.
    pose proof (nodup_length_le (consecutive_differences (points_of c))) as Hle.
    rewrite consecutive_differences_length in Hle.
    replace (length (points_of c)) with (length c) in Hle
      by (symmetry; apply length_map).
    lia. }
  split; [exact H|]. split.
  - intros start_idx base remaining Hb Hlen.
    cbn [find_planes]. rewrite (H base Hb Hlen). reflexivity.
  - split; [|split].
    + split; [repeat constructor; unfold PointIndex; lia|].
      repeat (constructor; [|repeat (constructor; try lia)]). constructor.
    + vm_compute. reflexivity.
    + intros start_idx remaining. cbn [find_planes].
      replace (is_solution_subseq_fast [0; 1; 3; 6]) with (@Ok bool false)
        by (vm_compute; reflexivity).
      reflexivity.
Qed.

Lemma no_pruning_before_depth_4_witness :
  Forall PointIndex [0; 1; 3] /\ (length [0; 1; 3] <= 3)%nat /\
  is_solution_subseq_fast [0; 1; 3] = Ok true.
Proof.
  assert (Hc : Forall PointIndex [0; 1; 3])
    by (repeat constructor; unfold PointIndex; lia).
  assert (Hl : (length [0; 1; 3] <= 3)%nat) by (cbn; lia).
  split; [exact Hc|]. split; [exact Hl|].
  exact (proj1 no_pruning_before_depth_4 [0; 1; 3] Hc Hl).
Defined.

(** ** Planes of the lattice, in integers *)

(** The check holds of the whole lattice, by computation. *)
Lemma lattice_check_ok : forallb origin_check (tails all_points) = true.
Proof. vm_compute. reflexivity. Qed.

Lemma tails_skipn {A : Type} (d : A) (l : list A) :
  forall k j : nat, (k <= j < length l)%nat ->
    In (nth j l d, skipn (S j) l) (tails (skipn k l)).
Proof.
  induction l as [|a l IH]; intros k j H; cbn [length] in H; [lia|].
  destruct k as [|k].
  - cbn [skipn tails]. destruct j as [|j].
    + left. reflexivity.
    + right. apply (IH 0%nat j). lia.
  - destruct j as [|j]; [lia|]. apply (IH k j). lia.
Qed.

Lemma skipn_nth_In {A : Type} (d : A) (l : list A) :
  forall k j : nat, (k <= j < length l)%nat -> In (nth j l d) (skipn k l).
Proof.
  induction l as [|a l IH]; intros k j H; cbn [length] in H; [lia|].
  destruct k as [|k].
  - cbn [skipn]. apply nth_In. cbn [length]. lia.
  - destruct j as [|j]; [lia|]. apply (IH k j). lia.
Qed.

Lemma points_after_In (i j : Z) :
  0 <= i < j -> j <= 80 -> In (lattice_point j) (points_after i).
Proof.
  intros H1 H2. unfold lattice_point, points_after. apply skipn_nth_In.
  change (length all_points) with 81%nat. lia.
Qed.

Lemma points_after_tails (i j : Z) :
  0 <= i < j -> j <= 80 ->
  In (lattice_point j, points_after j) (tails (points_after i)).
Proof.
  intros H1 H2. unfold lattice_point, points_after. apply tails_skipn.
  change (length all_points) with 81%nat. lia.
Qed.

Lemma points_after_tails_all (i : Z) :
  0 <= i <= 80 -> In (lattice_point i, points_after i) (tails all_points).
Proof.
  intros H. unfold lattice_point, points_after.
  apply (tails_skipn (Vec 0 0 0 0) all_points 0%nat).
  change (length all_points) with 81%nat. lia.
Qed.

Lemma lattice_pair (i0 i1 : Z) :
  0 <= i0 < i1 -> i1 <= 80 ->
  0 < dot (vsub (lattice_point i1) (lattice_point i0))
          (vsub (lattice_point i1) (lattice_point i0)).
Proof.
  intros H0 H1. pose proof lattice_check_ok as H.
  rewrite forallb_forall in H.
  specialize (H _ (points_after_tails_all i0 ltac:(lia))). unfold origin_check in H.
  rewrite forallb_forall in H.
  specialize (H _ (points_after_tails i0 i1 H0 H1)). unfold pair_check in H.
  apply andb_prop in H. destruct H as [H _]. apply Z.ltb_lt, H.
Qed.

Lemma lattice_plane (i0 i1 ik : Z) :
  0 <= i0 < i1 -> i1 < ik <= 80 ->
  plane_check (lattice_point i0) (lattice_point i1) (points_after i1) (lattice_point ik) = true.
Proof.
  intros H0 H1. pose proof lattice_check_ok as H.
  rewrite forallb_forall in H.
  specialize (H _ (points_after_tails_all i0 ltac:(lia))). unfold origin_check in H.
  rewrite forallb_forall in H.
  specialize (H _ (points_after_tails i0 i1 H0 ltac:(lia))). unfold pair_check in H.
  apply andb_prop in H. destruct H as [_ H].
  rewrite forallb_forall in H. apply H.
  apply points_after_In; lia.
Qed.

Lemma lattice_point_mono (i j : Z) :
  0 <= i < j -> j <= 80 -> lex_lt (lattice_point i) (lattice_point j).
Proof.
  intros H0 H1.
  assert (H : forallb lex_check (tails all_points) = true) by (vm_compute; reflexivity).
  rewrite forallb_forall in H.
  specialize (H _ (points_after_tails_all i ltac:(lia))). unfold lex_check in H.
  rewrite forallb_forall in H. apply H. apply points_after_In; lia.
Qed.

Lemma plane_check_facts (p0 p1 pk : point) (later : list point) :
  plane_check p0 p1 later pk = true ->
  usable (vsub p1 p0) (vsub pk p0) = true ->
  let m := cross (vsub p1 p0) (vsub pk p0) in
  let basis2 := orthogonalise (vsub p1 p0) (vsub pk p0) in
  let plane := p0 :: p1 :: filter (fun p => on_span m (vsub p p0)) later in
  independent m = true /\
  (0 <? fdot basis2 basis2)%float = true /\
  (forall p, In p (p1 :: later) ->
     reduces_to_zero (vsub p1 p0) basis2 (vsub p p0) = on_span m (vsub p p0)) /\
  ((length plane < 9)%nat \/ (length plane = 9%nat /\ few_deltas plane = true)).
Proof.
  intros H Hu. unfold plane_check in H. rewrite Hu in H. cbv zeta in *.
  destruct (independent _); [|discriminate]. split; [reflexivity|].
  destruct (0 <? _)%float; [|discriminate]. split; [reflexivity|].
  destruct (forallb _ (p1 :: later)) eqn:E; [|discriminate]. split.
  - rewrite forallb_forall in E. intros p Hp. apply eqb_prop, E, Hp.
  - apply orb_prop in H. destruct H as [H|H].
    + left. apply Nat.ltb_lt, H.
    + right. apply andb_prop in H. destruct H as [H1 H2].
      split; [apply Nat.eqb_eq, H1|exact H2].
Qed.

(** ** Planes of 4-space *)

Lemma on_span_true (m : minors) (q : point) :
  on_span m q = true <->
  v0 q * m12 m - v1 q * m02 m + v2 q * m01 m = 0 /\
  v0 q * m13 m - v1 q * m03 m + v3 q * m01 m = 0 /\
  v0 q * m23 m - v2 q * m03 m + v3 q * m02 m = 0 /\
  v1 q * m23 m - v2 q * m13 m + v3 q * m12 m = 0.
Proof.
  unfold on_span.
  destruct (Z.eqb_spec (v0 q * m12 m - v1 q * m02 m + v2 q * m01 m) 0);
  [|split; [discriminate|tauto]].
  destruct (Z.eqb_spec (v0 q * m13 m - v1 q * m03 m + v3 q * m01 m) 0);
  [|split; [discriminate|tauto]].
  destruct (Z.eqb_spec (v0 q * m23 m - v2 q * m03 m + v3 q * m02 m) 0);
  [|split; [discriminate|tauto]].
  rewrite Z.eqb_eq. tauto.
Qed.

(** A vector of the integer span test is a rational combination of the
    two rows, with a common nonzero denominator [d]. *)
Lemma on_span_combination (b1 b2 q : point) :
  independent (cross b1 b2) = true ->
  on_span (cross b1 b2) q = true ->
  exists d A C : Z,
    d <> 0 /\
    v0 q * d = A * v0 b1 + C * v0 b2 /\ v1 q * d = A * v1 b1 + C * v1 b2 /\
    v2 q * d = A * v2 b1 + C * v2 b2 /\ v3 q * d = A * v3 b1 + C * v3 b2.
Proof.
  intros Hi Hs. apply on_span_true in Hs.
  destruct b1 as [x0 x1 x2 x3], b2 as [y0 y1 y2 y3], q as [q0 q1 q2 q3].
  unfold independent, cross in *. cbn [m01 m02 m03 m12 m13 m23 v0 v1 v2 v3] in *.
  destruct Hs as (D1 & D2 & D3 & D4).
  destruct (Z.eq_dec (x0 * y1 - x1 * y0) 0) as [E1|N];
    [|exists (x0 * y1 - x1 * y0), (q0 * y1 - q1 * y0), (x0 * q1 - x1 * q0);
      split; [exact N|]; repeat split; lia].
  destruct (Z.eq_dec (x0 * y2 - x2 * y0) 0) as [E2|N];
    [|exists (x0 * y2 - x2 * y0), (q0 * y2 - q2 * y0), (x0 * q2 - x2 * q0);
      split; [exact N|]; repeat split; lia].
  destruct (Z.eq_dec (x0 * y3 - x3 * y0) 0) as [E3|N];
    [|exists (x0 * y3 - x3 * y0), (q0 * y3 - q3 * y0), (x0 * q3 - x3 * q0);
      split; [exact N|]; repeat split; lia].
  destruct (Z.eq_dec (x1 * y2 - x2 * y1) 0) as [E4|N];
    [|exists (x1 * y2 - x2 * y1), (q1 * y2 - q2 * y1), (x1 * q2 - x2 * q1);
      split; [exact N|]; repeat split; lia].
  destruct (Z.eq_dec (x1 * y3 - x3 * y1) 0) as [E5|N];
    [|exists (x1 * y3 - x3 * y1), (q1 * y3 - q3 * y1), (x1 * q3 - x3 * q1);
      split; [exact N|]; repeat split; lia].
  destruct (Z.eq_dec (x2 * y3 - x3 * y2) 0) as [E6|N];
    [|exists (x2 * y3 - x3 * y2), (q2 * y3 - q3 * y2), (x2 * q3 - x3 * q2);
      split; [exact N|]; repeat split; lia].
  rewrite E1, E2, E3, E4, E5, E6 in Hi. discriminate.
Qed.

Ltac push_IZR :=
  repeat first [rewrite minus_IZR | rewrite plus_IZR | rewrite mult_IZR | rewrite opp_IZR].

Lemma affine_components (p : point) (o u v : vec R) (a c : R) :
  to_real p = affine_combination o u v a c ->
  (IZR (v0 p) = v0 o + a * v0 u + c * v0 v /\ IZR (v1 p) = v1 o + a * v1 u + c * v1 v /\
   IZR (v2 p) = v2 o + a * v2 u + c * v2 v /\ IZR (v3 p) = v3 o + a * v3 u + c * v3 v)%R.
Proof.
  unfold to_real, vmap, affine_combination. intros H. injection H as H0 H1 H2 H3.
  repeat split; assumption.
Qed.

Lemma scaled_combination (p p0 d A x C y : R) :
  (d <> 0 -> (p - p0) * d = A * x + C * y -> p = p0 + A / d * x + C / d * y)%R.
Proof.
  intros Hd H.
  replace p with (p0 + (p - p0) * d / d)%R by (field; exact Hd).
  rewrite H. field. exact Hd.
Qed.

(** A point whose offset from [p0] passes the integer span test lies on the
    plane through [p0] directed by [b1] and [b2]. *)
Lemma on_span_affine (p0 b1 b2 p : point) :
  independent (cross b1 b2) = true ->
  on_span (cross b1 b2) (vsub p p0) = true ->
  exists a c : R,
    to_real p = affine_combination (to_real p0) (to_real b1) (to_real b2) a c.
Proof.
  intros Hi Hs.
  destruct (on_span_combination b1 b2 (vsub p p0) Hi Hs) as (d & A & C & Hd & H0 & H1 & H2 & H3).
  exists (IZR A / IZR d)%R, (IZR C / IZR d)%R.
  assert (Hd' : IZR d <> 0%R) by (apply not_0_IZR, Hd).
  destruct p0 as [o0 o1 o2 o3], b1 as [x0 x1 x2 x3], b2 as [y0 y1 y2 y3], p as [p0 p1 p2 p3].
  unfold vsub, vmap2 in *. cbn [v0 v1 v2 v3] in *.
  unfold to_real, vmap, affine_combination. cbn [v0 v1 v2 v3].
  apply (f_equal IZR) in H0, H1, H2, H3. revert H0 H1 H2 H3. push_IZR. intros H0 H1 H2 H3.
  f_equal; apply scaled_combination; assumption.
Qed.

(** Conversely, the offsets of points of one plane pass the integer span
    test, whatever points direct it. *)
Lemma affine_on_span (o u v : vec R) (pa pb pc pd : point) :
  (exists a c, to_real pa = affine_combination o u v a c) ->
  (exists a c, to_real pb = affine_combination o u v a c) ->
  (exists a c, to_real pc = affine_combination o u v a c) ->
  (exists a c, to_real pd = affine_combination o u v a c) ->
  on_span (cross (vsub pb pa) (vsub pc pa)) (vsub pd pa) = true.
Proof.
  intros (a1 & c1 & Ha) (a2 & c2 & Hb) (a3 & c3 & Hc) (a4 & c4 & Hd).
  apply affine_components in Ha, Hb, Hc, Hd.
  destruct Ha as (A0 & A1 & A2 & A3), Hb as (B0 & B1 & B2 & B3),
           Hc as (C0 & C1 & C2 & C3), Hd as (D0 & D1 & D2 & D3).
  apply on_span_true.
  destruct pa as [pa0 pa1 pa2 pa3], pb as [pb0 pb1 pb2 pb3],
           pc as [pc0 pc1 pc2 pc3], pd as [pd0 pd1 pd2 pd3].
  unfold cross, vsub, vmap2 in *.
  cbn [m01 m02 m03 m12 m13 m23 v0 v1 v2 v3] in *.
  repeat split; apply eq_IZR; push_IZR;
    rewrite ?A0, ?A1, ?A2, ?A3, ?B0, ?B1, ?B2, ?B3, ?C0, ?C1, ?C2, ?C3, ?D0, ?D1, ?D2, ?D3;
    ring.
Qed.

(** Vectors that are not scalar multiples. *)
Lemma independent_not_multiple (b1 b2 : point) (k : R) :
  independent (cross b1 b2) = true ->
  to_real b2 <> vmap (Rmult k) (to_real b1).
Proof.
  intros Hi H. unfold to_real, vmap in H. injection H as H0 H1 H2 H3.
  destruct b1 as [x0 x1 x2 x3], b2 as [y0 y1 y2 y3].
  unfold independent, cross in Hi. cbn [m01 m02 m03 m12 m13 m23 v0 v1 v2 v3] in *.
  assert (E : forall x y x' y' : Z,
             (IZR y = k * IZR x -> IZR y' = k * IZR x' -> IZR (x * y' - x' * y) = 0)%R).
  { intros x y x' y' E1 E2. push_IZR. rewrite E1, E2. ring. }
  rewrite (eq_IZR _ _ (E _ _ _ _ H0 H1)), (eq_IZR _ _ (E _ _ _ _ H0 H2)),
          (eq_IZR _ _ (E _ _ _ _ H0 H3)), (eq_IZR _ _ (E _ _ _ _ H1 H2)),
          (eq_IZR _ _ (E _ _ _ _ H1 H3)), (eq_IZR _ _ (E _ _ _ _ H2 H3)) in Hi.
  discriminate.
Qed.

(** ** Candidates *)

Lemma Candidate_cons (i : Z) (c : list Z) :
  Candidate (i :: c) ->
  PointIndex i /\ Candidate c /\ Forall (fun j => i < j <= 80) c.
Proof.
  intros [Hall Hinc]. inversion Hall as [|? ? Hi Hall']; subst.
  inversion Hinc as [|? ? Hinc' Hlt]; subst.
  split; [exact Hi|]. split; [split; assumption|].
  rewrite Forall_forall in *. intros j Hj.
  specialize (Hall' j Hj). specialize (Hlt j Hj). unfold PointIndex in Hall'. lia.
Qed.

Lemma points_of_sorted (c : list Z) :
  Candidate c -> StronglySorted lex_lt (points_of c).
Proof.
  induction c as [|i c IH]; intros Hc; [constructor|].
  destruct (Candidate_cons i c Hc) as (Hi & Hc' & Hlt).
  cbn [points_of map]. constructor; [apply IH, Hc'|].
  apply Forall_forall. intros p Hp. apply in_map_iff in Hp.
  destruct Hp as (j & <- & Hj). rewrite Forall_forall in Hlt. specialize (Hlt j Hj).
  unfold PointIndex in Hi. apply lattice_point_mono; lia.
Qed.

Lemma points_of_NoDup (c : list Z) : Candidate c -> NoDup (points_of c).
Proof.
  intros Hc. eapply StronglySorted_NoDup; [exact lex_lt_irrefl|].
  apply points_of_sorted, Hc.
Qed.

(** Strictly sorted lists with the same members are equal. *)
Lemma sorted_same_members (l1 : list point) :
  forall l2, StronglySorted lex_lt l1 -> StronglySorted lex_lt l2 ->
             incl l1 l2 -> incl l2 l1 -> l1 = l2.
Proof.
  induction l1 as [|a l1 IH]; intros l2 S1 S2 I12 I21.
  - destruct l2 as [|b l2]; [reflexivity|]. destruct (I21 b (or_introl eq_refl)).
  - destruct l2 as [|b l2]; [destruct (I12 a (or_introl eq_refl))|].
    inversion S1 as [|? ? S1' F1]; subst. inversion S2 as [|? ? S2' F2]; subst.
    rewrite Forall_forall in F1, F2.
    assert (Hab : a = b).
    { destruct (I12 a (or_introl eq_refl)) as [E|Ha]; [symmetry; exact E|].
      destruct (I21 b (or_introl eq_refl)) as [E|Hb]; [exact E|].
      exfalso. apply (lex_lt_irrefl a).
      eapply lex_lt_trans; [apply F1, Hb|apply F2, Ha]. }
    subst b. f_equal. apply IH; try assumption.
    + intros x Hx. destruct (I12 x (or_intror Hx)) as [E|H]; [|exact H].
      subst x. destruct (lex_lt_irrefl a). apply F1, Hx.
    + intros x Hx. destruct (I21 x (or_intror Hx)) as [E|H]; [|exact H].
      subst x. destruct (lex_lt_irrefl a). apply F2, Hx.
Qed.

Lemma StronglySorted_skipn {A : Type} (R : A -> A -> Prop) (l : list A) :
  forall k, StronglySorted R l -> StronglySorted R (skipn k l).
Proof.
  induction l as [|a l IH]; intros [|k] H; cbn [skipn]; try assumption.
  apply IH. inversion H; assumption.
Qed.

Lemma StronglySorted_filter {A : Type} (R : A -> A -> Prop) (f : A -> bool) (l : list A) :
  StronglySorted R l -> StronglySorted R (filter f l).
Proof.
  induction 1 as [|a l H IH Ha]; cbn [filter]; [constructor|].
  destruct (f a); [|exact IH]. constructor; [exact IH|].
  rewrite Forall_forall in *. intros x Hx. apply filter_In in Hx. apply Ha, Hx.
Qed.

Lemma vsub_injective (p0 a b : point) : vsub a p0 = vsub b p0 -> a = b.
Proof.
  destruct p0 as [o0 o1 o2 o3], a as [a0 a1 a2 a3], b as [b0 b1 b2 b3].
  unfold vsub, vmap2. cbn [v0 v1 v2 v3]. intros H. injection H as H0 H1 H2 H3.
  f_equal; lia.
Qed.

(** ** The exact test on candidates *)

Section ExactOnCandidate.

Variables (i0 i1 : Z) (rest : list Z).
Hypothesis Hcand : Candidate (i0 :: i1 :: rest).

Local Abbreviation p0 := (lattice_point i0).
Local Abbreviation basis1 := (vsub (lattice_point i1) p0).
Local Abbreviation others := (map (fun p => vsub p p0) (points_of rest)).

Lemma candidate_bounds :
  0 <= i0 < i1 /\ i1 <= 80 /\ forall i, In i rest -> i1 < i <= 80.
Proof.
  destruct (Candidate_cons _ _ Hcand) as (H0 & Hc1 & Hlt0).
  destruct (Candidate_cons _ _ Hc1) as (H1 & _ & Hlt1).
  rewrite Forall_forall in Hlt0, Hlt1.
  pose proof (Hlt0 i1 (or_introl eq_refl)) as H01. unfold PointIndex in *.
  split; [lia|]. split; [lia|]. exact Hlt1.
Qed.

Lemma others_In (q : point) :
  In q others <-> exists i, In i rest /\ q = vsub (lattice_point i) p0.
Proof.
  unfold points_of. rewrite map_map, in_map_iff.
  split; intros (i & H1 & H2); exists i; split; auto.
Qed.

Lemma exact_points_candidate :
  exact_points (points_of (i0 :: i1 :: rest)) = exact_relative (basis1 :: others).
Proof. reflexivity. Qed.

(** The first divisor. *)
Lemma basis1_positive : 0 < dot basis1 basis1.
Proof.
  destruct candidate_bounds as (H0 & H1 & _). apply lattice_pair; assumption.
Qed.

(** The facts of the lattice check, at the selected second basis vector. *)
Lemma selected_basis (basis2 : point) :
  find (usable basis1) others = Some basis2 ->
  let m := cross basis1 basis2 in
  let plane :=
    p0 :: lattice_point i1 ::
    filter (fun p => on_span m (vsub p p0)) (points_after i1) in
  independent m = true /\
  (0 <? fdot (orthogonalise basis1 basis2) (orthogonalise basis1 basis2))%float = true /\
  (forall i, i = i1 \/ In i rest ->
     reduces_to_zero basis1 (orthogonalise basis1 basis2) (vsub (lattice_point i) p0) =
     on_span m (vsub (lattice_point i) p0)) /\
  ((length plane < 9)%nat \/ (length plane = 9%nat /\ few_deltas plane = true)).
Proof.
  intros Hfind. apply find_some in Hfind. destruct Hfind as [Hin Hu].
  apply others_In in Hin. destruct Hin as (ik & Hik & ->).
  destruct candidate_bounds as (H0 & H1 & Hrest).
  pose proof (lattice_plane i0 i1 ik H0 (Hrest ik Hik)) as Hp.
  destruct (plane_check_facts _ _ _ _ Hp Hu) as (Hi & Hd & Hred & Hsize).
  split; [exact Hi|]. split; [exact Hd|]. split; [|exact Hsize].
  intros i [->|Hi']; apply Hred.
  - left. reflexivity.
  - right. pose proof (Hrest i Hi'). apply points_after_In; lia.
Qed.

(** With a second basis vector, the exact test is the integer span test
    of every point after the first. *)
Lemma exact_relative_span (basis2 : point) :
  find (usable basis1) others = Some basis2 ->
  (forallb (reduces_to_zero basis1 (orthogonalise basis1 basis2)) (basis1 :: others) = true <->
   forall i, i = i1 \/ In i rest ->
     on_span (cross basis1 basis2) (vsub (lattice_point i) p0) = true).
Proof.
  intros Hfind. destruct (selected_basis basis2 Hfind) as (_ & _ & Hred & _).
  rewrite forallb_forall. split.
  - intros H i Hi. rewrite <- (Hred i Hi). apply H.
    destruct Hi as [->|Hi]; [left; reflexivity|right].
    apply others_In. exists i. split; [exact Hi|reflexivity].
  - intros H q [<-|Hq].
    + rewrite (Hred i1 (or_introl eq_refl)).
      apply H. left. reflexivity.
    + apply others_In in Hq. destruct Hq as (i & Hi & ->).
      rewrite (Hred i (or_intror Hi)). apply H. right. exact Hi.
Qed.

(** Without one, every later point is at [-1], [-2] or [2] times the
    first basis vector from the origin. *)
Lemma no_basis_multiples :
  find (usable basis1) others = None ->
  forall q, In q others ->
    In q [vneg basis1; vscale (-2) basis1; vscale 2 basis1].
Proof.
  intros Hfind q Hq. pose proof (find_none _ _ Hfind q Hq) as Hu.
  unfold usable in Hu.
  destruct (array_equal q (vneg basis1)) eqn:E1;
    [apply array_equal_eq in E1; left; symmetry; exact E1|].
  destruct (array_equal q (vscale (-2) basis1)) eqn:E2;
    [apply array_equal_eq in E2; right; left; symmetry; exact E2|].
  destruct (array_equal q (vscale 2 basis1)) eqn:E3;
    [apply array_equal_eq in E3; right; right; left; symmetry; exact E3|].
  discriminate.
Qed.

Lemma exact_relative_found (basis2 : point) :
  find (usable basis1) others = Some basis2 ->
  exact_relative (basis1 :: others) =
  forallb (reduces_to_zero basis1 (orthogonalise basis1 basis2)) (basis1 :: others).
Proof.
  intros Hfind. unfold exact_relative.
  destruct others as [|q l]; [discriminate Hfind|].
  rewrite Hfind. reflexivity.
Qed.

Lemma exact_relative_none :
  find (usable basis1) others = None -> exact_relative (basis1 :: others) = true.
Proof.
  intros Hfind. unfold exact_relative.
  destruct others as [|q l]; [reflexivity|].
  rewrite Hfind. reflexivity.
Qed.

Lemma others_NoDup : NoDup others.
Proof.
  apply NoDup_map_NoDup_ForallPairs.
  - intros a b _ _. apply vsub_injective.
  - apply points_of_NoDup.
    destruct (Candidate_cons _ _ Hcand) as (_ & Hc1 & _).
    destruct (Candidate_cons _ _ Hc1) as (_ & Hc2 & _). exact Hc2.
Qed.

End ExactOnCandidate.

(** ** The divisors of the exact test *)

Lemma lattice_point_in_cube (i : Z) : PointIndex i -> in_cube (lattice_point i).
Proof.
  intros Hi. apply all_points_in_cube. unfold lattice_point. apply nth_In.
  change (length all_points) with 81%nat. unfold PointIndex in Hi. lia.
Qed.

Lemma dot_offset_bound (p q : point) :
  in_cube p -> in_cube q -> dot (vsub p q) (vsub p q) <= 16.
Proof.
  destruct p as [a0 a1 a2 a3], q as [b0 b1 b2 b3].
  unfold in_cube, dot, vsub, vmap2. cbn [v0 v1 v2 v3].
  intros (A0 & A1 & A2 & A3) (B0 & B1 & B2 & B3).
  assert (S : forall x y, -1 <= x <= 1 -> -1 <= y <= 1 -> (x - y) * (x - y) <= 4)
    by (intros; nia).
  pose proof (S a0 b0 A0 B0). pose proof (S a1 b1 A1 B1).
  pose proof (S a2 b2 A2 B2). pose proof (S a3 b3 A3 B3). lia.
Qed.

Lemma to_float_positive (z : Z) : 0 < z <= 16 -> (0 <? to_float z)%float = true.
Proof.
  intros H.
  assert (Hall : forallb (fun z => (0 <? to_float z)%float) (range 1 17) = true)
    by (vm_compute; reflexivity).
  apply (range_forallb _ _ _ Hall). lia.
Qed.

(** C4: on a candidate, the divisor [basis1 . basis1] is positive, as an
    integer and once converted to a float, and whenever a second basis
    vector is selected, it is no scalar multiple of [basis1] and the
    divisor [basis2 . basis2] of its orthogonalised form is positive. *)
Theorem exact_test_divisors (c : list Z) (basis1 : point) (others : list point) :
  Candidate c ->
  relative_points c = Ok (basis1 :: others) ->
  0 < dot basis1 basis1 /\
  (0 <? to_float (dot basis1 basis1))%float = true /\
  forall basis2,
    find (usable basis1) others = Some basis2 ->
    (forall k : R, to_real basis2 <> vmap (Rmult k) (to_real basis1)) /\
    (0 <? fdot (orthogonalise basis1 basis2) (orthogonalise basis1 basis2))%float = true.
Proof.
  intros Hc Hrel.
  destruct c as [|i0 [|i1 rest]].
  - discriminate Hrel.
  - rewrite relative_points_ok in Hrel by apply Hc. discriminate Hrel.
  - rewrite relative_points_ok in Hrel by apply Hc.
    cbn [points_of map] in Hrel. injection Hrel as <- <-.
    pose proof (basis1_positive i0 i1 rest Hc) as Hpos.
    destruct (Candidate_cons _ _ Hc) as (H0 & Hc1 & _).
    destruct (Candidate_cons _ _ Hc1) as (H1 & _ & _).
    pose proof (dot_offset_bound _ _ (lattice_point_in_cube i1 H1)
                                 (lattice_point_in_cube i0 H0)) as Hle.
    split; [exact Hpos|]. split; [apply to_float_positive; lia|].
    intros basis2 Hfind.
    destruct (selected_basis i0 i1 rest Hc basis2 Hfind) as (Hi & Hd & _).
    split; [|exact Hd].
    intros k. apply independent_not_multiple, Hi.
Qed.

Lemma exact_test_divisors_witness :
  Candidate [0; 1; 2; 3] /\
  relative_points [0; 1; 2; 3] = Ok [Vec 0 0 0 1; Vec 0 0 0 2; Vec 0 0 1 0] /\
  find (usable (Vec 0 0 0 1)) [Vec 0 0 0 2; Vec 0 0 1 0] = Some (Vec 0 0 1 0) /\
  0 < dot (Vec 0 0 0 1) (Vec 0 0 0 1) /\
  PrimFloat.ltb 0%float
    (fdot (orthogonalise (Vec 0 0 0 1) (Vec 0 0 1 0))
          (orthogonalise (Vec 0 0 0 1) (Vec 0 0 1 0))) = true.
Proof.
  assert (Hc : Candidate [0; 1; 2; 3]).
  { split; [repeat constructor; unfold PointIndex; lia|].
    repeat (constructor; [|repeat (constructor; try lia)]). constructor. }
  assert (Hrel : relative_points [0; 1; 2; 3] =
                 Ok [Vec 0 0 0 1; Vec 0 0 0 2; Vec 0 0 1 0]) by reflexivity.
  assert (Hfind : find (usable (Vec 0 0 0 1)) [Vec 0 0 0 2; Vec 0 0 1 0] =
                  Some (Vec 0 0 1 0)) by reflexivity.
  destruct (exact_test_divisors _ _ _ Hc Hrel) as (H1 & _ & H2).
  split; [exact Hc|]. split; [exact Hrel|]. split; [exact Hfind|].
  split; [exact H1|]. exact (proj2 (H2 _ Hfind)).
Defined.

(** ** The exact test and coplanarity *)

Lemma vneg_vscale (b : point) : vneg b = vscale (-1) b.
Proof.
  destruct b as [b0 b1 b2 b3]. unfold vneg, vscale, vmap. cbn [v0 v1 v2 v3]. f_equal; lia.
Qed.

(** Points on one line through [p0] are coplanar. *)
Lemma collinear_coplanar (p0 b : point) (pts : list point) :
  (forall p, In p pts -> exists t : Z, vsub p p0 = vscale t b) -> coplanar pts.
Proof.
  intros H. exists (to_real p0), (to_real b), (to_real b). intros p Hp.
  destruct (H p Hp) as (t & Ht). exists (IZR t), 0%R.
  destruct p0 as [o0 o1 o2 o3], b as [b0 b1 b2 b3], p as [q0 q1 q2 q3].
  unfold vsub, vscale, vmap2, vmap in Ht. cbn [v0 v1 v2 v3] in Ht.
  injection Ht as H0 H1 H2 H3.
  unfold to_real, vmap, affine_combination. cbn [v0 v1 v2 v3].
  f_equal.
  - replace q0 with (o0 + t * b0) by lia. push_IZR. ring.
  - replace q1 with (o1 + t * b1) by lia. push_IZR. ring.
  - replace q2 with (o2 + t * b2) by lia. push_IZR. ring.
  - replace q3 with (o3 + t * b3) by lia. push_IZR. ring.
Qed.

Lemma vsub_zero_multiple (p b : point) : vsub p p = vscale 0 b.
Proof.
  destruct p as [q0 q1 q2 q3], b as [b0 b1 b2 b3].
  unfold vsub, vscale, vmap2, vmap. cbn [v0 v1 v2 v3]. f_equal; lia.
Qed.

Lemma vscale_one (b : point) : b = vscale 1 b.
Proof.
  destruct b as [b0 b1 b2 b3]. unfold vscale, vmap. cbn [v0 v1 v2 v3]. f_equal; lia.
Qed.

Lemma exact_points_coplanar (c : list Z) :
  Candidate c -> (exact_points (points_of c) = true <-> coplanar (points_of c)).
Proof.
  intros Hc. destruct c as [|i0 [|i1 rest]].
  - split; [|reflexivity]. intros _.
    exists (Vec 0 0 0 0)%R, (Vec 0 0 0 0)%R, (Vec 0 0 0 0)%R. intros p [].
  - split; [|reflexivity]. intros _.
    apply (collinear_coplanar (lattice_point i0) (lattice_point i0)).
    intros p [<-|[]]. exists 0. apply vsub_zero_multiple.
  - rewrite exact_points_candidate.
    destruct (find (usable (vsub (lattice_point i1) (lattice_point i0)))
                   (map (fun p => vsub p (lattice_point i0)) (points_of rest)))
      as [basis2|] eqn:Hfind.
    + destruct (selected_basis i0 i1 rest Hc basis2 Hfind) as (Hi & _).
      rewrite (exact_relative_found i0 i1 rest basis2 Hfind).
      rewrite (exact_relative_span i0 i1 rest Hc basis2 Hfind).
      split.
      * intros H.
        exists (to_real (lattice_point i0)),
               (to_real (vsub (lattice_point i1) (lattice_point i0))),
               (to_real basis2).
        intros p [<-|Hp].
        { exists 0%R, 0%R. destruct (lattice_point i0) as [o0 o1 o2 o3].
          unfold to_real, vmap, affine_combination.
          cbn [v0 v1 v2 v3]. f_equal; ring. }
        assert (Hp' : exists i, (i = i1 \/ In i rest) /\ p = lattice_point i).
        { destruct Hp as [<-|Hp]; [exists i1; split; [left|]; reflexivity|].
          apply in_map_iff in Hp. destruct Hp as (i & <- & Hi').
          exists i. split; [right; exact Hi'|reflexivity]. }
        destruct Hp' as (i & Hi' & ->).
        apply on_span_affine; [exact Hi|]. apply H, Hi'.
      * intros (o & u & v & H) i Hi'.
        apply find_some in Hfind. destruct Hfind as [Hin _].
        apply in_map_iff in Hin. destruct Hin as (pk & <- & Hpk).
        apply (affine_on_span o u v); apply H.
        { left. reflexivity. }
        { right. left. reflexivity. }
        { right. right. exact Hpk. }
        { destruct Hi' as [->|Hi']; [right; left; reflexivity|].
          right. right. apply in_map. exact Hi'. }
    + rewrite (exact_relative_none i0 i1 rest Hfind).
      split; [|reflexivity]. intros _.
      apply (collinear_coplanar (lattice_point i0)
                                (vsub (lattice_point i1) (lattice_point i0))).
      intros p [<-|[<-|Hp]].
      * exists 0. apply vsub_zero_multiple.
      * exists 1. apply vscale_one.
      * destruct (no_basis_multiples i0 i1 rest Hfind (vsub p (lattice_point i0)))
          as [E|[E|[E|[]]]].
        { apply (in_map (fun p => vsub p (lattice_point i0))), Hp. }
        { exists (-1). rewrite <- E. apply vneg_vscale. }
        { exists (-2). symmetry. exact E. }
        { exists 2. symmetry. exact E. }
Qed.

(** C2: on a candidate the exact test returns, and its answer is true
    exactly when the points lie in a common affine subspace of dimension
    at most 2; so it is true of every coplanar candidate and false of
    every candidate that is not coplanar. *)
Theorem exact_test_coplanar (c : list Z) :
  Candidate c ->
  (is_solution_subseq c = Ok true <-> coplanar (points_of c)) /\
  (is_solution_subseq c = Ok false <-> ~ coplanar (points_of c)).
Proof.
  intros Hc. rewrite (exact_exact_points c (proj1 Hc)).
  pose proof (exact_points_coplanar c Hc) as H.
  destruct (exact_points (points_of c)); split; split; intros H'.
  - apply H. reflexivity.
  - reflexivity.
  - discriminate H'.
  - destruct H'. apply H. reflexivity.
  - discriminate H'.
  - apply H in H'. discriminate H'.
  - intros Hco. apply H in Hco. discriminate Hco.
  - reflexivity.
Qed.

Lemma exact_test_coplanar_witness :
  Candidate [0; 1; 2; 3; 4; 5; 6; 7; 8] /\
  is_solution_subseq [0; 1; 2; 3; 4; 5; 6; 7; 8] = Ok true /\
  coplanar (points_of [0; 1; 2; 3; 4; 5; 6; 7; 8]).
Proof.
  assert (Hc : Candidate [0; 1; 2; 3; 4; 5; 6; 7; 8]).
  { split; [repeat constructor; unfold PointIndex; lia|].
    repeat (constructor; [|repeat (constructor; try lia)]). constructor. }
  assert (He : is_solution_subseq [0; 1; 2; 3; 4; 5; 6; 7; 8] = Ok true)
    by (vm_compute; reflexivity).
  split; [exact Hc|]. split; [exact He|].
  exact (proj1 (proj1 (exact_test_coplanar _ Hc)) He).
Defined.

(** ** The filter never prunes a plane *)

Lemma exact_few_deltas (s : list Z) :
  Candidate s -> length s = 9%nat ->
  exact_points (points_of s) = true -> few_deltas (points_of s) = true.
Proof.
  intros Hc Hlen Hex.
  destruct s as [|i0 [|i1 rest]]; try discriminate Hlen.
  cbn [length] in Hlen.
  assert (Hrest : length (points_of rest) = 7%nat)
    by (unfold points_of; rewrite length_map; lia).
  rewrite exact_points_candidate in Hex.
  destruct (find (usable (vsub (lattice_point i1) (lattice_point i0)))
                 (map (fun p => vsub p (lattice_point i0)) (points_of rest)))
    as [basis2|] eqn:Hfind.
  - destruct (selected_basis i0 i1 rest Hc basis2 Hfind) as (_ & _ & _ & Hsize).
    rewrite (exact_relative_found i0 i1 rest basis2 Hfind) in Hex.
    rewrite (exact_relative_span i0 i1 rest Hc basis2 Hfind) in Hex.
    cbv zeta in Hsize.
    set (inside := filter (fun p => on_span (cross (vsub (lattice_point i1) (lattice_point i0)) basis2)
                                           (vsub p (lattice_point i0)))
                          (points_after i1)) in *.
    destruct (candidate_bounds i0 i1 rest Hc) as (H0 & H1 & Hlater).
    destruct (Candidate_cons _ _ Hc) as (_ & Hc1 & _).
    destruct (Candidate_cons _ _ Hc1) as (_ & Hc2 & _).
    assert (Hincl : incl (points_of rest) inside).
    { intros p Hp. apply in_map_iff in Hp. destruct Hp as (i & <- & Hi).
      apply filter_In. pose proof (Hlater i Hi). split.
      - apply points_after_In; lia.
      - apply Hex. right. exact Hi. }
    pose proof (NoDup_incl_length (points_of_NoDup rest Hc2) Hincl) as Hle.
    cbn [length] in Hsize.
    destruct Hsize as [Hsize|[Hsize Hfew]]; [lia|].
    replace (points_of (i0 :: i1 :: rest))
      with (lattice_point i0 :: lattice_point i1 :: inside); [exact Hfew|].
    change (points_of (i0 :: i1 :: rest))
      with (lattice_point i0 :: lattice_point i1 :: points_of rest).
    f_equal. f_equal. symmetry.
    apply sorted_same_members.
    + apply points_of_sorted, Hc2.
    + apply StronglySorted_filter, StronglySorted_skipn, all_points_sorted.
    + exact Hincl.
    + apply NoDup_length_incl; [apply points_of_NoDup, Hc2|lia|exact Hincl].
  - pose proof (others_NoDup i0 i1 rest Hc) as Hnd.
    pose proof (NoDup_incl_length Hnd (no_basis_multiples i0 i1 rest Hfind)) as Hle.
    rewrite length_map in Hle. cbn [length] in Hle. lia.
Qed.

Lemma points_of_injective (s s' : list Z) :
  Forall PointIndex s -> Forall PointIndex s' -> points_of s = points_of s' -> s = s'.
Proof.
  intros H H' E. apply map_Some_injective.
  rewrite <- (indices_of_points_of s H), <- (indices_of_points_of s' H'), E. reflexivity.
Qed.

Lemma accepted_root (s : list Z) :
  In s (accepted 0 [] 9) <->
  Candidate s /\ length s = 9%nat /\ exact_points (points_of s) = true.
Proof.
  split.
  - intros H. pose proof (accepted_exact _ _ _ _ H) as Hex.
    apply accepted_shape in H; [|lia]. destruct H as (ext & -> & Hlen & Hinc & Hall).
    cbn [app]. repeat split; assumption.
  - intros ([Hall Hinc] & Hlen & Hex).
    apply (accepted_complete 9 0 [] s); cbn [app].
    + exact Hlen.
    + exact Hinc.
    + eapply Forall_impl; [|exact Hall]. cbn. unfold PointIndex. intros; lia.
    + apply exact_few_deltas; [split; assumption|assumption|assumption].
    + exact Hex.
Qed.

(** C1: a strictly increasing sequence of 9 point indices has its plane
    yielded by [find_planes()] exactly when the exact test accepts it; the
    yielded planes are those of the brute-force enumeration, which applies
    the exact test to every such sequence; and no prefix of an accepted
    sequence is rejected by the fast filter. *)
Theorem find_planes_is_brute_force :
  (forall s, Candidate s -> length s = 9%nat ->
     (In (points_of s) (yields (find_planes 0 [] 9)) <-> is_solution_subseq s = Ok true)) /\
  (forall plane,
     In plane (yields (find_planes 0 [] 9)) <->
     exists s, Candidate s /\ length s = 9%nat /\
               is_solution_subseq s = Ok true /\ plane = points_of s) /\
  (forall s, Candidate s -> length s = 9%nat -> is_solution_subseq s = Ok true ->
     forall k, is_solution_subseq_fast (firstn k s) = Ok true).
Proof.
  assert (Hy : yields (find_planes 0 [] 9) = map points_of (accepted 0 [] 9))
    by (apply yields_accepted; [constructor|lia]).
  assert (Hex : forall s, Candidate s ->
                  (is_solution_subseq s = Ok true <-> exact_points (points_of s) = true)).
  { intros s Hc. rewrite (exact_exact_points s (proj1 Hc)).
    split; intros H; [injection H as H; exact H|rewrite H; reflexivity]. }
  split; [|split].
  - intros s Hc Hlen. rewrite Hy, (Hex s Hc), in_map_iff. split.
    + intros (s' & E & Hin).
      destruct (proj1 (accepted_root s') Hin) as (Hc' & _ & He).
      rewrite (points_of_injective s' s (proj1 Hc') (proj1 Hc) E) in He. exact He.
    + intros He. exists s. split; [reflexivity|].
      exact (proj2 (accepted_root s) (conj Hc (conj Hlen He))).
  - intros plane. rewrite Hy, in_map_iff. split.
    + intros (s & <- & Hin).
      destruct (proj1 (accepted_root s) Hin) as (Hc & Hlen & He).
      exists s. repeat split; try assumption; try apply Hc. apply (Hex s Hc), He.
    + intros (s & Hc & Hlen & He & ->). exists s. split; [reflexivity|].
      exact (proj2 (accepted_root s) (conj Hc (conj Hlen (proj1 (Hex s Hc) He)))).
  - intros s Hc Hlen He k.
    assert (Hk : Forall PointIndex (firstn k s)).
    { destruct Hc as [Hall _]. rewrite <- (firstn_skipn k s) in Hall.
      apply Forall_app in Hall. apply Hall. }
    rewrite (fast_few_deltas _ Hk). f_equal.
    apply (few_deltas_prefix _ (points_of (skipn k s))).
    rewrite <- points_of_app, firstn_skipn.
    apply exact_few_deltas; [exact Hc|exact Hlen|apply (Hex s Hc), He].
Qed.

Lemma find_planes_is_brute_force_witness :
  Candidate [0; 1; 2; 3; 4; 5; 6; 7; 8] /\
  length [0; 1; 2; 3; 4; 5; 6; 7; 8] = 9%nat /\
  is_solution_subseq [0; 1; 2; 3; 4; 5; 6; 7; 8] = Ok true /\
  In (points_of [0; 1; 2; 3; 4; 5; 6; 7; 8]) (yields (find_planes 0 [] 9)).
Proof.
  assert (Hc : Candidate [0; 1; 2; 3; 4; 5; 6; 7; 8]).
  { split; [repeat constructor; unfold PointIndex; lia|].
    repeat (constructor; [|repeat (constructor; try lia)]). constructor. }
  assert (He : is_solution_subseq [0; 1; 2; 3; 4; 5; 6; 7; 8] = Ok true)
    by (vm_compute; reflexivity).
  split; [exact Hc|]. split; [reflexivity|]. split; [exact He|].
  exact (proj2 (proj1 find_planes_is_brute_force _ Hc eq_refl) He).
Defined.

(** * Further properties *)

(** ** Subscripts out of range *)

Lemma denoted_PointIndex (i : Z) : Subscript i -> PointIndex (denoted i).
Proof. unfold Subscript, PointIndex, denoted. destruct (i <? 0) eqn:E; lia. Qed.

Lemma pointAt_subscript (i : Z) :
  Subscript i -> pointAt i = Ok (lattice_point (denoted i)).
Proof.
  unfold Subscript, denoted. intros H. destruct (i <? 0) eqn:E.
  - apply (getitem_from_end all_points i). rewrite all_points_len. lia.
  - apply pointAt_index. unfold PointIndex. lia.
Qed.

Lemma pointAt_not_subscript (i : Z) : ~ Subscript i -> pointAt i = Raise IndexError.
Proof.
  unfold Subscript. intros H. apply getitem_out_of_range. rewrite all_points_len. lia.
Qed.

Lemma Subscript_dec (i : Z) : {Subscript i} + {~ Subscript i}.
Proof.
  unfold Subscript. destruct (Z_le_dec (-81) i); [|right; lia].
  destruct (Z_le_dec i 80); [left|right]; lia.
Defined.

Lemma traverse_pointAt_subscripts (c : list Z) :
  Forall Subscript c -> traverse pointAt c = Ok (points_of (map denoted c)).
Proof.
  intros H. unfold points_of. rewrite map_map.
  apply traverse_map. intros i Hi. apply pointAt_subscript.
  rewrite Forall_forall in H. apply H, Hi.
Qed.

Lemma traverse_pointAt_raises (c : list Z) :
  Exists (fun i => ~ Subscript i) c -> traverse pointAt c = Raise IndexError.
Proof.
  induction 1 as [i c H|i c H IH]; cbn [traverse].
  - rewrite (pointAt_not_subscript i H). reflexivity.
  - destruct (pointAt i) as [p|[]]; [|reflexivity]. cbn [bind].
    rewrite IH. reflexivity.
Qed.

Lemma traverse_length {A B : Type} (f : A -> result B) (l : list A) (bs : list B) :
  traverse f l = Ok bs -> length bs = length l.
Proof.
  revert bs. induction l as [|a l IH]; intros bs H; cbn [traverse] in H.
  - injection H as <-. reflexivity.
  - destruct (f a) as [b|]; [|discriminate H]. cbn [bind] in H.
    destruct (traverse f l) as [bs'|]; [|discriminate H]. cbn [bind] in H.
    injection H as <-. cbn [length]. f_equal. apply IH. reflexivity.
Qed.

(** Both tests are functions of the points found. *)
Lemma fast_of_points (c : list Z) (pts : list point) :
  traverse pointAt c = Ok pts -> is_solution_subseq_fast c = Ok (few_deltas pts).
Proof.
  intros H. unfold is_solution_subseq_fast. rewrite H. cbn [bind].
  rewrite deltas_of_ok. reflexivity.
Qed.

Lemma exact_of_points (c : list Z) (pts : list point) :
  traverse pointAt c = Ok pts -> is_solution_subseq c = Ok (exact_points pts).
Proof.
  intros H. pose proof (traverse_length _ _ _ H) as Hlen.
  unfold is_solution_subseq, relative_points. rewrite H. cbn [bind].
  destruct c as [|i c]; destruct pts as [|origin pts]; try discriminate Hlen.
  - reflexivity.
  - clear Hlen.
    replace (len (i :: c) =? 0) with false
      by (rewrite len_cons; pose proof (len_nonneg c); lia).
    rewrite (getitem_nth _ 0 (Vec 0 0 0 0)) by (unfold len; cbn [length]; lia).
    cbn [bind Z.to_nat nth tl exact_points].
    destruct (map (fun p => vsub p origin) pts) as [|b1 [|b2 rel]]; try reflexivity.
    replace (len (b1 :: b2 :: rel) <? 2) with false
      by (rewrite !len_cons; pose proof (len_nonneg rel); lia).
    rewrite (getitem_nth _ 0 (Vec 0 0 0 0)) by (unfold len; cbn [length]; lia).
    cbn [bind Z.to_nat nth tl exact_relative].
    destruct (find (usable b1) (b2 :: rel)); reflexivity.
Qed.

Lemma fast_raises (c : list Z) :
  Exists (fun i => ~ Subscript i) c -> is_solution_subseq_fast c = Raise IndexError.
Proof.
  intros H. unfold is_solution_subseq_fast.
  rewrite (traverse_pointAt_raises c H). reflexivity.
Qed.

Lemma exact_raises (c : list Z) :
  Exists (fun i => ~ Subscript i) c -> is_solution_subseq c = Raise IndexError.
Proof.
  intros H. destruct c as [|i c]; [inversion H|].
  unfold is_solution_subseq, relative_points.
  replace (len (i :: c) =? 0) with false
    by (rewrite len_cons; pose proof (len_nonneg c); lia).
  rewrite (traverse_pointAt_raises _ H). reflexivity.
Qed.

Lemma denoted_all_PointIndex (c : list Z) :
  Forall Subscript c -> Forall PointIndex (map denoted c).
Proof.
  intros H. apply Forall_forall. intros j Hj.
  apply in_map_iff in Hj. destruct Hj as (i & <- & Hi).
  apply denoted_PointIndex. rewrite Forall_forall in H. apply H, Hi.
Qed.

(** X1: the fast filter raises [IndexError] exactly when some subscript is
    outside [-81, 80]; otherwise it returns, and its answer is the one it
    gives on the indices the subscripts denote. *)
Theorem fast_filter_errors (c : list Z) :
  (Exists (fun i => ~ Subscript i) c -> is_solution_subseq_fast c = Raise IndexError) /\
  (Forall Subscript c ->
   exists b, is_solution_subseq_fast c = Ok b /\
             is_solution_subseq_fast (map denoted c) = Ok b).
Proof.
  split; [apply fast_raises|].
  intros H. exists (few_deltas (points_of (map denoted c))). split.
  - apply fast_of_points, traverse_pointAt_subscripts, H.
  - apply fast_few_deltas, denoted_all_PointIndex, H.
Qed.

Lemma fast_filter_errors_witness :
  is_solution_subseq_fast [0; 81] = Raise IndexError /\
  is_solution_subseq_fast [-81; -1] = Ok true /\
  is_solution_subseq_fast (map denoted [-81; -1]) = Ok true.
Proof.
  destruct (fast_filter_errors [0; 81]) as [H1 _].
  destruct (fast_filter_errors [-81; -1]) as [_ H2].
  split.
  - apply H1. right. left. unfold Subscript. lia.
  - destruct H2 as (b & Hb & Hb').
    + repeat constructor; unfold Subscript; lia.
    + assert (E : b = true).
      { assert (Hc : is_solution_subseq_fast [-81; -1] = Ok true) by (vm_compute; reflexivity).
        rewrite Hc in Hb. injection Hb as <-. reflexivity. }
      subst b. split; assumption.
Defined.

(** X2: the exact test returns true on the empty list without any lookup;
    it raises [IndexError] exactly when some subscript is outside
    [-81, 80]; otherwise it returns, with the answer it gives on the
    indices the subscripts denote. *)
Theorem exact_test_errors (c : list Z) :
  is_solution_subseq [] = Ok true /\
  (Exists (fun i => ~ Subscript i) c -> is_solution_subseq c = Raise IndexError) /\
  (Forall Subscript c ->
   exists b, is_solution_subseq c = Ok b /\ is_solution_subseq (map denoted c) = Ok b).
Proof.
  split; [reflexivity|]. split; [apply exact_raises|].
  intros H. exists (exact_points (points_of (map denoted c))). split.
  - apply exact_of_points, traverse_pointAt_subscripts, H.
  - apply exact_exact_points, denoted_all_PointIndex, H.
Qed.

Lemma exact_test_errors_witness :
  is_solution_subseq [0; 1; 100] = Raise IndexError /\
  exists b, is_solution_subseq [-3; -2; -1] = Ok b /\
            is_solution_subseq (map denoted [-3; -2; -1]) = Ok b.
Proof.
  destruct (exact_test_errors [0; 1; 100]) as (_ & H1 & _).
  destruct (exact_test_errors [-3; -2; -1]) as (_ & _ & H2).
  split.
  - apply H1. right. right. left. unfold Subscript. lia.
  - apply H2. repeat constructor; unfold Subscript; lia.
Defined.

(** ** The search on a base out of range *)

(** X3: a call of the search whose base holds a subscript outside
    [-81, 80] raises [IndexError] at once: nothing is printed or yielded,
    whatever the start index and the number of points still to choose. *)
Theorem find_planes_bad_base (start_idx : Z) (base : list Z) (remaining : nat) :
  Exists (fun i => ~ Subscript i) base ->
  find_planes start_idx base remaining = Run [] (Some IndexError).
Proof.
  intros H. destruct remaining as [|r]; cbn [find_planes].
  - rewrite (exact_raises base H). reflexivity.
  - rewrite (fast_raises base H). reflexivity.
Qed.

Lemma find_planes_bad_base_witness :
  find_planes 0 [81] 8 = Run [] (Some IndexError).
Proof.
  apply find_planes_bad_base. left. unfold Subscript. lia.
Defined.

(** ** The fast filter is sufficient for coplanarity *)

Lemma few_deltas_two (pts : list point) :
  few_deltas pts = true ->
  exists d1 d2, forall d, In d (consecutive_differences pts) -> d = d1 \/ d = d2.
Proof.
  unfold few_deltas, distinct_count, len. intros H. apply Z.leb_le in H.
  pose proof (nodup_In point_eq_dec (consecutive_differences pts)) as Hin.
  destruct (nodup point_eq_dec (consecutive_differences pts)) as [|d1 [|d2 [|d3 l]]].
  - exists (Vec 0 0 0 0), (Vec 0 0 0 0). intros d Hd. apply Hin in Hd. destruct Hd.
  - exists d1, d1. intros d Hd. apply Hin in Hd. destruct Hd as [<-|[]]. left. reflexivity.
  - exists d1, d2. intros d Hd. apply Hin in Hd.
    destruct Hd as [<-|[<-|[]]]; [left|right]; reflexivity.
  - cbn [length] in H. lia.
Qed.

(** Hopping by [d1] and [d2] from the first point reaches every point. *)
Lemma hops_reach (d1 d2 : point) (pts : list point) :
  forall p0,
    (forall d, In d (consecutive_differences (p0 :: pts)) -> d = d1 \/ d = d2) ->
    forall q, In q (p0 :: pts) ->
      exists a c : Z,
        v0 q - v0 p0 = a * v0 d1 + c * v0 d2 /\ v1 q - v1 p0 = a * v1 d1 + c * v1 d2 /\
        v2 q - v2 p0 = a * v2 d1 + c * v2 d2 /\ v3 q - v3 p0 = a * v3 d1 + c * v3 d2.
Proof.
  induction pts as [|p1 pts IH]; intros p0 H q Hq.
  - destruct Hq as [<-|[]]. exists 0, 0. lia.
  - destruct Hq as [<-|Hq]; [exists 0, 0; lia|].
    rewrite consecutive_differences_cons in H.
    destruct (IH p1 (fun d Hd => H d (or_intror Hd)) q Hq) as (a & c & E0 & E1 & E2 & E3).
    destruct (H _ (or_introl eq_refl)) as [E|E];
      apply (f_equal v0) in E as F0; apply (f_equal v1) in E as F1;
      apply (f_equal v2) in E as F2; apply (f_equal v3) in E as F3;
      unfold vsub, vmap2 in F0, F1, F2, F3; cbn [v0 v1 v2 v3] in F0, F1, F2, F3.
    + exists (a + 1), c. lia.
    + exists a, (c + 1). lia.
Qed.

Lemma few_deltas_coplanar (pts : list point) : few_deltas pts = true -> coplanar pts.
Proof.
  intros H. destruct (few_deltas_two pts H) as (d1 & d2 & Hd).
  destruct pts as [|p0 pts].
  - exists (Vec 0 0 0 0)%R, (Vec 0 0 0 0)%R, (Vec 0 0 0 0)%R. intros p [].
  - exists (to_real p0), (to_real d1), (to_real d2). intros q Hq.
    destruct (hops_reach d1 d2 pts p0 Hd q Hq) as (a & c & E0 & E1 & E2 & E3).
    exists (IZR a), (IZR c).
    destruct p0 as [o0 o1 o2 o3], d1 as [x0 x1 x2 x3], d2 as [y0 y1 y2 y3],
             q as [q0 q1 q2 q3].
    cbn [v0 v1 v2 v3] in *. unfold to_real, vmap, affine_combination. cbn [v0 v1 v2 v3].
    f_equal.
    + replace q0 with (o0 + (a * x0 + c * y0)) by lia. push_IZR. ring.
    + replace q1 with (o1 + (a * x1 + c * y1)) by lia. push_IZR. ring.
    + replace q2 with (o2 + (a * x2 + c * y2)) by lia. push_IZR. ring.
    + replace q3 with (o3 + (a * x3 + c * y3)) by lia. push_IZR. ring.
Qed.

Lemma candidate_0_1_3_6 : Candidate [0; 1; 3; 6].
Proof.
  split; [repeat constructor; unfold PointIndex; lia|].
  repeat (constructor; [|repeat (constructor; try lia)]). constructor.
Qed.

(** X4: point indices that pass the fast filter denote coplanar points, so
    a candidate that passes the fast filter passes the exact test. The
    converse fails below 9 points: the candidate [0, 1, 3, 6] passes the
    exact test and not the fast filter. *)
Theorem fast_filter_sufficient :
  (forall c, Forall PointIndex c ->
     is_solution_subseq_fast c = Ok true -> coplanar (points_of c)) /\
  (forall c, Candidate c ->
     is_solution_subseq_fast c = Ok true -> is_solution_subseq c = Ok true) /\
  (Candidate [0; 1; 3; 6] /\
   is_solution_subseq [0; 1; 3; 6] = Ok true /\
   is_solution_subseq_fast [0; 1; 3; 6] = Ok false).
Proof.
  assert (H : forall c, Forall PointIndex c ->
                is_solution_subseq_fast c = Ok true -> coplanar (points_of c)).
  { intros c Hc Hf. rewrite (fast_few_deltas c Hc) in Hf. injection Hf as Hf.
    apply few_deltas_coplanar, Hf. }
  split; [exact H|]. split.
  - intros c Hc Hf. rewrite (exact_exact_points c (proj1 Hc)). f_equal.
    apply (exact_points_coplanar c Hc), (H c (proj1 Hc) Hf).
  - split; [exact candidate_0_1_3_6|]. split; vm_compute; reflexivity.
Qed.

Lemma fast_filter_sufficient_witness :
  Candidate [0; 1; 2; 3] /\
  is_solution_subseq_fast [0; 1; 2; 3] = Ok true /\
  is_solution_subseq [0; 1; 2; 3] = Ok true.
Proof.
  assert (Hc : Candidate [0; 1; 2; 3]).
  { split; [repeat constructor; unfold PointIndex; lia|].
    repeat (constructor; [|repeat (constructor; try lia)]). constructor. }
  assert (Hf : is_solution_subseq_fast [0; 1; 2; 3] = Ok true) by (vm_compute; reflexivity).
  split; [exact Hc|]. split; [exact Hf|].
  exact (proj1 (proj2 fast_filter_sufficient) _ Hc Hf).
Defined.

(** ** The exact test on longer and shorter lists *)

Lemma find_app_found {A : Type} (f : A -> bool) (l more : list A) (a : A) :
  find f l = Some a -> find f (l ++ more) = Some a.
Proof.
  induction l as [|b l IH]; [discriminate|].
  cbn [app find]. destruct (f b); [trivial|exact IH].
Qed.

Lemma exact_relative_prefix (rel more : list point) :
  exact_relative (rel ++ more) = true -> exact_relative rel = true.
Proof.
  destruct rel as [|b1 [|o1 os]]; try reflexivity.
  cbn [app exact_relative].
  change (o1 :: os ++ more) with ((o1 :: os) ++ more).
  destruct (find (usable b1) (o1 :: os)) as [b2|] eqn:E; [|reflexivity].
  rewrite (find_app_found _ _ more _ E).
  change (b1 :: (o1 :: os) ++ more) with ((b1 :: o1 :: os) ++ more).
  rewrite forallb_app. intros H. apply andb_prop in H. apply H.
Qed.

Lemma exact_points_prefix (pts more : list point) :
  exact_points (pts ++ more) = true -> exact_points pts = true.
Proof.
  destruct pts as [|origin pts]; [reflexivity|].
  cbn [app exact_points]. rewrite map_app. apply exact_relative_prefix.
Qed.

(** X5: the exact test is closed under prefixes: when it accepts a list of
    subscripts, it accepts every list that the accepted one extends. *)
Theorem exact_test_prefix (c more : list Z) :
  is_solution_subseq (c ++ more) = Ok true -> is_solution_subseq c = Ok true.
Proof.
  intros H.
  destruct (Forall_Exists_dec Subscript Subscript_dec (c ++ more)) as [Hall|Hbad].
  - apply Forall_app in Hall. destruct Hall as [Hc Hm].
    rewrite (exact_of_points _ _ (traverse_pointAt_subscripts c Hc)). f_equal.
    assert (Hcm : Forall Subscript (c ++ more)) by (apply Forall_app; split; assumption).
    rewrite (exact_of_points _ _ (traverse_pointAt_subscripts _ Hcm)) in H.
    injection H as H. rewrite map_app, points_of_app in H.
    apply exact_points_prefix in H. exact H.
  - rewrite (exact_raises _ Hbad) in H. discriminate H.
Qed.

Lemma exact_test_prefix_witness :
  is_solution_subseq ([0; 1; 2] ++ [3; 4; 5; 6; 7; 8]) = Ok true /\
  is_solution_subseq [0; 1; 2] = Ok true.
Proof.
  assert (H : is_solution_subseq ([0; 1; 2] ++ [3; 4; 5; 6; 7; 8]) = Ok true)
    by (vm_compute; reflexivity).
  split; [exact H|]. exact (exact_test_prefix _ _ H).
Defined.

Lemma three_points_coplanar (p0 p1 p2 : point) : coplanar [p0; p1; p2].
Proof.
  exists (to_real p0), (to_real (vsub p1 p0)), (to_real (vsub p2 p0)).
  destruct p0 as [o0 o1 o2 o3], p1 as [x0 x1 x2 x3], p2 as [y0 y1 y2 y3].
  unfold to_real, vsub, vmap, vmap2, affine_combination. cbn [v0 v1 v2 v3].
  intros p [<-|[<-|[<-|[]]]].
  - exists 0%R, 0%R. cbn [v0 v1 v2 v3]. f_equal; ring.
  - exists 1%R, 0%R. cbn [v0 v1 v2 v3]. f_equal; push_IZR; ring.
  - exists 0%R, 1%R. cbn [v0 v1 v2 v3]. f_equal; push_IZR; ring.
Qed.

Lemma coplanar_incl (pts pts' : list point) :
  incl pts pts' -> coplanar pts' -> coplanar pts.
Proof.
  intros Hi (o & u & v & H). exists o, u, v. intros p Hp. apply H, Hi, Hp.
Qed.

(** The size of what the exact test accepts. *)
Lemma exact_accepts_at_most_9 (c : list Z) :
  Candidate c -> exact_points (points_of c) = true -> (length c <= 9)%nat.
Proof.
  intros Hc Hex. destruct c as [|i0 [|i1 rest]]; cbn [length]; try lia.
  assert (Hrest : length (points_of rest) = length rest)
    by (unfold points_of; apply length_map).
  destruct (Candidate_cons _ _ Hc) as (_ & Hc1 & _).
  destruct (Candidate_cons _ _ Hc1) as (_ & Hc2 & _).
  rewrite exact_points_candidate in Hex.
  destruct (find (usable (vsub (lattice_point i1) (lattice_point i0)))
                 (map (fun p => vsub p (lattice_point i0)) (points_of rest)))
    as [basis2|] eqn:Hfind.
  - destruct (selected_basis i0 i1 rest Hc basis2 Hfind) as (_ & _ & _ & Hsize).
    rewrite (exact_relative_found i0 i1 rest basis2 Hfind) in Hex.
    rewrite (exact_relative_span i0 i1 rest Hc basis2 Hfind) in Hex.
    cbv zeta in Hsize.
    set (inside := filter (fun p => on_span (cross (vsub (lattice_point i1) (lattice_point i0)) basis2)
                                           (vsub p (lattice_point i0)))
                          (points_after i1)) in *.
    destruct (candidate_bounds i0 i1 rest Hc) as (H0 & H1 & Hlater).
    assert (Hincl : incl (points_of rest) inside).
    { intros p Hp. apply in_map_iff in Hp. destruct Hp as (i & <- & Hi).
      apply filter_In. pose proof (Hlater i Hi). split.
      - apply points_after_In; lia.
      - apply Hex. right. exact Hi. }
    pose proof (NoDup_incl_length (points_of_NoDup rest Hc2) Hincl) as Hle.
    cbn [length] in Hsize. lia.
  - pose proof (others_NoDup i0 i1 rest Hc) as Hnd.
    pose proof (NoDup_incl_length Hnd (no_basis_multiples i0 i1 rest Hfind)) as Hle.
    rewrite length_map in Hle. cbn [length] in Hle. lia.
Qed.

(** X6: on a candidate, the exact test accepts whenever there are at most
    3 indices, and rejects whenever there are 10 or more: no plane holds
    more than 9 points of the lattice. *)
Theorem exact_test_by_size (c : list Z) :
  Candidate c ->
  ((length c <= 3)%nat -> is_solution_subseq c = Ok true) /\
  ((10 <= length c)%nat -> is_solution_subseq c = Ok false).
Proof.
  intros Hc. rewrite (exact_exact_points c (proj1 Hc)). split; intros Hlen; f_equal.
  - apply (exact_points_coplanar c Hc).
    destruct c as [|i0 [|i1 [|i2 [|i3 c]]]]; cbn [length] in Hlen; try lia.
    + apply (coplanar_incl _ [Vec 0 0 0 0; Vec 0 0 0 0; Vec 0 0 0 0]);
        [intros p []|apply three_points_coplanar].
    + apply (coplanar_incl _ [lattice_point i0; lattice_point i0; lattice_point i0]);
        [|apply three_points_coplanar].
      intros p [<-|[]]. left. reflexivity.
    + apply (coplanar_incl _ [lattice_point i0; lattice_point i1; lattice_point i1]);
        [|apply three_points_coplanar].
      intros p [<-|[<-|[]]]; [left|right; left]; reflexivity.
    + apply three_points_coplanar.
  - destruct (exact_points (points_of c)) eqn:E; [|reflexivity].
    pose proof (exact_accepts_at_most_9 c Hc E). lia.
Qed.

Lemma exact_test_by_size_witness :
  Candidate [0; 40; 80] /\ is_solution_subseq [0; 40; 80] = Ok true /\
  Candidate [0; 1; 2; 3; 4; 5; 6; 7; 8; 9] /\
  is_solution_subseq [0; 1; 2; 3; 4; 5; 6; 7; 8; 9] = Ok false.
Proof.
  assert (H3 : Candidate [0; 40; 80]).
  { split; [repeat constructor; unfold PointIndex; lia|].
    repeat (constructor; [|repeat (constructor; try lia)]). constructor. }
  assert (H10 : Candidate [0; 1; 2; 3; 4; 5; 6; 7; 8; 9]).
  { split; [repeat constructor; unfold PointIndex; lia|].
    repeat (constructor; [|repeat (constructor; try lia)]). constructor. }
  split; [exact H3|]. split; [apply (exact_test_by_size _ H3); cbn; lia|].
  split; [exact H10|]. apply (exact_test_by_size _ H10). cbn. lia.
Defined.

(** ** Division by zero in the exact test *)

Lemma vsub_diag (p : point) : vsub p p = Vec 0 0 0 0.
Proof.
  destruct p as [q0 q1 q2 q3]. unfold vsub, vmap2. cbn [v0 v1 v2 v3]. f_equal; lia.
Qed.

Lemma lattice_point_In (i : Z) : PointIndex i -> In (lattice_point i) all_points.
Proof.
  intros Hi. unfold lattice_point. apply nth_In.
  change (length all_points) with 81%nat. unfold PointIndex in Hi. lia.
Qed.

Lemma lattice_point_injective (i j : Z) :
  PointIndex i -> PointIndex j -> lattice_point i = lattice_point j -> i = j.
Proof.
  intros Hi Hj E. pose proof (indexOf_lattice_point i Hi) as Ei.
  rewrite E, (indexOf_lattice_point j Hj) in Ei. injection Ei as <-. reflexivity.
Qed.

Lemma usable_zero (q : point) : usable (Vec 0 0 0 0) q = negb (array_equal q (Vec 0 0 0 0)).
Proof.
  unfold usable.
  change (vneg (Vec 0 0 0 0)) with (Vec 0 0 0 0).
  change (vscale (-2) (Vec 0 0 0 0)) with (Vec 0 0 0 0).
  change (vscale 2 (Vec 0 0 0 0)) with (Vec 0 0 0 0).
  destruct (array_equal q (Vec 0 0 0 0)); reflexivity.
Qed.

Lemma zero_basis_residual (i k : Z) :
  PointIndex i -> PointIndex k ->
  reduces_to_zero (Vec 0 0 0 0)
    (orthogonalise (Vec 0 0 0 0) (vsub (lattice_point k) (lattice_point i)))
    (Vec 0 0 0 0) = false.
Proof.
  intros Hi Hk.
  assert (H : forallb zero_basis_check all_points = true) by (vm_compute; reflexivity).
  rewrite forallb_forall in H. specialize (H _ (lattice_point_In i Hi)).
  unfold zero_basis_check in H. rewrite forallb_forall in H.
  specialize (H _ (lattice_point_In k Hk)). apply negb_true_iff in H. exact H.
Qed.

(** X7: when the first two indices are equal, [basis1] is the zero vector
    and the quotients of line 71 are 0/0: nothing is raised, and the test
    answers false as soon as some later index differs from the first one,
    true when all of them repeat it. *)
Theorem exact_test_zero_basis (i : Z) (rest : list Z) :
  PointIndex i -> Forall PointIndex rest ->
  ((forall k, In k rest -> k = i) -> is_solution_subseq (i :: i :: rest) = Ok true) /\
  ((exists k, In k rest /\ k <> i) -> is_solution_subseq (i :: i :: rest) = Ok false).
Proof.
  intros Hi Hrest.
  assert (Hall : Forall PointIndex (i :: i :: rest))
    by (constructor; [exact Hi|constructor; [exact Hi|exact Hrest]]).
  rewrite (exact_exact_points _ Hall), (exact_points_candidate i i rest).
  rewrite Forall_forall in Hrest.
  destruct (find (usable (vsub (lattice_point i) (lattice_point i)))
                 (map (fun p => vsub p (lattice_point i)) (points_of rest)))
    as [basis2|] eqn:Hfind.
  - rewrite (exact_relative_found i i rest basis2 Hfind).
    apply find_some in Hfind. destruct Hfind as [Hin Hu].
    apply (others_In i rest) in Hin. destruct Hin as (k & Hk & ->).
    cbn [forallb]. rewrite vsub_diag in *.
    rewrite (zero_basis_residual i k Hi (Hrest k Hk)). cbn [andb].
    split; [|reflexivity].
    intros Hsame. rewrite (Hsame k Hk), vsub_diag in Hu. discriminate Hu.
  - rewrite (exact_relative_none i i rest Hfind).
    split; [reflexivity|].
    intros (k & Hk & Hne). exfalso. apply Hne.
    apply (lattice_point_injective k i (Hrest k Hk) Hi).
    apply (vsub_injective (lattice_point i)). rewrite (vsub_diag (lattice_point i)).
    pose proof (find_none _ _ Hfind (vsub (lattice_point k) (lattice_point i))) as Hu.
    rewrite vsub_diag, usable_zero in Hu.
    apply array_equal_eq. apply negb_false_iff. apply Hu.
    apply (others_In i rest). exists k. split; [exact Hk|reflexivity].
Qed.

Lemma exact_test_zero_basis_witness :
  is_solution_subseq [5; 5; 5] = Ok true /\ is_solution_subseq [5; 5; 6] = Ok false.
Proof.
  assert (H5 : PointIndex 5) by (unfold PointIndex; lia).
  assert (H6 : PointIndex 6) by (unfold PointIndex; lia).
  split.
  - apply (exact_test_zero_basis 5 [5] H5); [constructor; [exact H5|constructor]|].
    intros k [<-|[]]. reflexivity.
  - apply (exact_test_zero_basis 5 [6] H5); [constructor; [exact H6|constructor]|].
    exists 6. split; [left; reflexivity|lia].
Defined.

(** ** A call of the search *)

(** X8: a call on a base of point indices with a start index of at least 0
    raises nothing; each plane it yields is that of the base extended by
    [remaining] strictly increasing indices from the start index on, which
    the exact test accepts; and with too few indices left from the start
    index, it yields nothing. *)
Theorem find_planes_extends_base (start_idx : Z) (base : list Z) (remaining : nat) :
  Forall PointIndex base -> 0 <= start_idx ->
  raised (find_planes start_idx base remaining) = None /\
  Forall (fun plane =>
            exists ext, plane = points_of (base ++ ext) /\
                        length ext = remaining /\ increasing ext /\
                        Forall (fun i => start_idx <= i <= 80) ext /\
                        is_solution_subseq (base ++ ext) = Ok true)
         (yields (find_planes start_idx base remaining)) /\
  ((1 <= remaining)%nat -> 81 < start_idx + Z.of_nat remaining ->
   find_planes start_idx base remaining = done).
Proof.
  intros Hb Hs.
  pose proof (find_planes_accepted remaining start_idx base Hb Hs) as Hrun.
  assert (Hshape : forall s, In s (accepted start_idx base remaining) ->
            exists ext, s = base ++ ext /\ length ext = remaining /\ increasing ext /\
                        Forall (fun i => start_idx <= i <= 80) ext).
  { intros s Hin. apply (accepted_shape remaining start_idx base s Hs Hin). }
  split; [rewrite Hrun; reflexivity|]. split.
  - rewrite (yields_accepted start_idx base remaining Hb Hs).
    apply Forall_forall. intros plane Hp. apply in_map_iff in Hp.
    destruct Hp as (s & <- & Hin).
    pose proof (accepted_exact _ _ _ _ Hin) as Hex.
    destruct (Hshape s Hin) as (ext & -> & Hlen & Hinc & Hall).
    exists ext. repeat split; try assumption.
    rewrite exact_exact_points; [rewrite Hex; reflexivity|].
    apply Forall_app. split; [exact Hb|].
    eapply Forall_impl; [|exact Hall]. cbn. unfold PointIndex. intros; lia.
  - intros H1 Hroom. rewrite Hrun.
    destruct (accepted start_idx base remaining) as [|s l]; [reflexivity|].
    exfalso. destruct (Hshape s (or_introl eq_refl)) as (ext & _ & Hlen & Hinc & Hall).
    destruct ext as [|i ext]; [cbn in Hlen; lia|].
    assert (Hr : i + Z.of_nat (length ext) <= 80).
    { apply increasing_room; [exact Hinc|].
      eapply Forall_impl; [|exact Hall]. cbn; intros; lia. }
    inversion Hall; subst. cbn [length] in Hroom. lia.
Qed.

Lemma find_planes_extends_base_witness :
  find_planes 74 [0; 1] 8 = done /\ raised (find_planes 2 [0; 1] 7) = None.
Proof.
  assert (Hb : Forall PointIndex [0; 1]) by (repeat constructor; unfold PointIndex; lia).
  split.
  - apply (find_planes_extends_base 74 [0; 1] 8 Hb); lia.
  - apply (find_planes_extends_base 2 [0; 1] 7 Hb). lia.
Defined.

(** ** What the search yields, in terms of points *)

Lemma in_cube_lattice_point (p : point) :
  in_cube p -> exists i, PointIndex i /\ lattice_point i = p.
Proof.
  intros Hp. pose proof (in_cube_once p Hp) as Hc.
  assert (Hin : In p all_points).
  { apply (count_occ_In point_eq_dec). lia. }
  destruct (In_nth _ _ (Vec 0 0 0 0) Hin) as (n & Hn & E).
  change (length all_points) with 81%nat in Hn.
  exists (Z.of_nat n). split; [unfold PointIndex; lia|].
  unfold lattice_point. rewrite Nat2Z.id. exact E.
Qed.

Lemma in_cube_points_of (plane : list point) :
  Forall in_cube plane -> exists s, Forall PointIndex s /\ points_of s = plane.
Proof.
  induction 1 as [|p plane Hp _ (s & Hs & E)].
  - exists []. split; [constructor|reflexivity].
  - destruct (in_cube_lattice_point p Hp) as (i & Hi & Ei).
    exists (i :: s). split; [constructor; assumption|].
    cbn [points_of map]. fold (points_of s). rewrite Ei, E. reflexivity.
Qed.

Lemma sorted_points_increasing (s : list Z) :
  Forall PointIndex s -> StronglySorted lex_lt (points_of s) -> increasing s.
Proof.
  induction s as [|i s IH]; intros Hall Hs; [constructor|].
  inversion Hall as [|? ? Hi Hall']; subst.
  cbn [points_of map] in Hs. inversion Hs as [|? ? Hs' Hlt]; subst.
  constructor; [apply IH; assumption|].
  rewrite Forall_forall in *. intros j Hj.
  specialize (Hlt (lattice_point j) (in_map lattice_point s j Hj)).
  specialize (Hall' j Hj). unfold PointIndex in Hi, Hall'.
  destruct (Z.lt_trichotomy i j) as [H|[H|H]]; [exact H| |].
  - subst j. destruct (lex_lt_irrefl _ Hlt).
  - exfalso. apply (lex_lt_irrefl (lattice_point i)).
    eapply lex_lt_trans; [exact Hlt|]. apply lattice_point_mono; lia.
Qed.

(** X9: the planes yielded by [find_planes()] are exactly the lists of 9
    points with components in {-1, 0, 1}, in strictly increasing
    lexicographic order, that lie in a common affine subspace of dimension
    at most 2. *)
Theorem find_planes_yields_coplanar_nonets (plane : list point) :
  In plane (yields (find_planes 0 [] 9)) <->
  length plane = 9%nat /\ Forall in_cube plane /\
  StronglySorted lex_lt plane /\ coplanar plane.
Proof.
  rewrite (yields_accepted 0 [] 9) by (try constructor; lia).
  rewrite in_map_iff. split.
  - intros (s & <- & Hin).
    destruct (proj1 (accepted_root s) Hin) as (Hc & Hlen & Hex).
    split; [unfold points_of; rewrite length_map; exact Hlen|].
    split; [|split].
    + apply Forall_forall. intros p Hp. apply in_map_iff in Hp.
      destruct Hp as (i & <- & Hi). apply lattice_point_in_cube.
      destruct Hc as [Hall _]. rewrite Forall_forall in Hall. apply Hall, Hi.
    + apply points_of_sorted, Hc.
    + apply (exact_points_coplanar s Hc), Hex.
  - intros (Hlen & Hcube & Hsorted & Hco).
    destruct (in_cube_points_of plane Hcube) as (s & Hs & <-).
    assert (Hc : Candidate s).
    { split; [exact Hs|]. apply sorted_points_increasing; assumption. }
    exists s. split; [reflexivity|].
    apply accepted_root. split; [exact Hc|]. split.
    + unfold points_of in Hlen. rewrite length_map in Hlen. exact Hlen.
    + apply (exact_points_coplanar s Hc), Hco.
Qed.

(** ** The planes found *)

Lemma points_eqb_eq (a b : list point) : points_eqb a b = true -> a = b.
Proof.
  revert b. induction a as [|p a IH]; intros [|q b] H; try discriminate H; [reflexivity|].
  cbn [points_eqb] in H. apply andb_prop in H. destruct H as [H1 H2].
  apply array_equal_eq in H1. subst q. f_equal. apply IH, H2.
Qed.

Lemma increasingb_sound (l : list Z) : increasingb l = true -> increasing l.
Proof.
  intros H. apply Sorted_StronglySorted; [intros a b c; apply Z.lt_trans|].
  induction l as [|a [|b l] IH]; constructor.
  - constructor.
  - constructor.
  - apply IH. cbn [increasingb] in H. apply andb_prop in H. apply H.
  - constructor. cbn [increasingb] in H. apply andb_prop in H. lia.
Qed.

Lemma candidate_check_sound (s : list Z) : candidate_check s = true -> Candidate s.
Proof.
  unfold candidate_check. intros H. apply andb_prop in H. destruct H as [H1 H2].
  split; [|apply increasingb_sound, H2].
  rewrite forallb_forall in H1. apply Forall_forall. intros i Hi.
  specialize (H1 i Hi). unfold PointIndex. lia.
Qed.

Lemma seq_ltb_sound (a b : list Z) : seq_ltb a b = true -> seq_lt a b.
Proof.
  revert b. induction a as [|x a IH]; intros [|y b] H; cbn in *; try discriminate H; [exact I|].
  apply orb_prop in H. destruct H as [H|H]; [left; lia|].
  apply andb_prop in H. destruct H as [H1 H2]. right. split; [lia|apply IH, H2].
Qed.

Lemma seqs_sortedb_sound (l : list (list Z)) :
  seqs_sortedb l = true -> StronglySorted seq_lt l.
Proof.
  intros H. apply Sorted_StronglySorted; [intros a b c; apply seq_lt_trans|].
  induction l as [|a [|b l] IH]; constructor.
  - constructor.
  - constructor.
  - apply IH. cbn [seqs_sortedb] in H. apply andb_prop in H. apply H.
  - constructor. cbn [seqs_sortedb] in H. apply andb_prop in H. apply seq_ltb_sound, H.
Qed.

(** Every sequence of [plane_list] is a candidate of 9 indices that the
    exact test accepts, and the list is in lexicographic order. *)
Lemma plane_list_accepted (s : list Z) :
  In s plane_list ->
  Candidate s /\ length s = 9%nat /\ exact_points (points_of s) = true.
Proof.
  assert (H : forallb (fun s => candidate_check s && (length s =? 9)%nat &&
                                exact_points (points_of s)) plane_list = true)
    by (vm_compute; reflexivity).
  rewrite forallb_forall in H. intros Hs. specialize (H s Hs).
  apply andb_prop in H. destruct H as [H H3]. apply andb_prop in H. destruct H as [H1 H2].
  split; [apply candidate_check_sound, H1|]. split; [apply Nat.eqb_eq, H2|exact H3].
Qed.

Lemma plane_list_sorted : StronglySorted seq_lt plane_list.
Proof. apply seqs_sortedb_sound. vm_compute. reflexivity. Qed.

(** Every plane of 9 points found from three lattice points is listed. *)
Lemma all_listed :
  forallb (origin_listed (map points_of plane_list)) (tails all_points) = true.
Proof. vm_compute. reflexivity. Qed.

Lemma lattice_listed (i0 i1 ik : Z) :
  0 <= i0 < i1 -> i1 < ik <= 80 ->
  triple_listed (map points_of plane_list) (lattice_point i0) (lattice_point i1)
                (points_after i1) (lattice_point ik) = true.
Proof.
  intros H0 H1. pose proof all_listed as H.
  rewrite forallb_forall in H.
  specialize (H _ (points_after_tails_all i0 ltac:(lia))). unfold origin_listed in H.
  rewrite forallb_forall in H.
  specialize (H _ (points_after_tails i0 i1 H0 ltac:(lia))). unfold pair_listed in H.
  rewrite forallb_forall in H. apply H.
  apply points_after_In; lia.
Qed.

(** The points of an accepted sequence of 9 indices are its first two
    points and the later points of the lattice on their plane. *)
Lemma accepted_plane_points (i0 i1 : Z) (rest : list Z) :
  Candidate (i0 :: i1 :: rest) -> length rest = 7%nat ->
  exact_points (points_of (i0 :: i1 :: rest)) = true ->
  exists ik,
    In ik rest /\
    usable (vsub (lattice_point i1) (lattice_point i0))
           (vsub (lattice_point ik) (lattice_point i0)) = true /\
    points_of (i0 :: i1 :: rest) =
    lattice_point i0 :: lattice_point i1 ::
    filter (fun p => on_span (cross (vsub (lattice_point i1) (lattice_point i0))
                                    (vsub (lattice_point ik) (lattice_point i0)))
                             (vsub p (lattice_point i0)))
           (points_after i1).
Proof.
  intros Hc Hlen Hex.
  assert (Hrest : length (points_of rest) = 7%nat)
    by (unfold points_of; rewrite length_map; exact Hlen).
  rewrite exact_points_candidate in Hex.
  destruct (find (usable (vsub (lattice_point i1) (lattice_point i0)))
                 (map (fun p => vsub p (lattice_point i0)) (points_of rest)))
    as [basis2|] eqn:Hfind.
  - destruct (selected_basis i0 i1 rest Hc basis2 Hfind) as (_ & _ & _ & Hsize).
    rewrite (exact_relative_found i0 i1 rest basis2 Hfind) in Hex.
    rewrite (exact_relative_span i0 i1 rest Hc basis2 Hfind) in Hex.
    apply find_some in Hfind. destruct Hfind as [Hin Hu].
    apply (others_In i0 rest) in Hin. destruct Hin as (ik & Hik & ->).
    exists ik. split; [exact Hik|]. split; [exact Hu|].
    cbv zeta in Hsize.
    set (inside := filter _ (points_after i1)) in *.
    destruct (candidate_bounds i0 i1 rest Hc) as (H0 & H1 & Hlater).
    destruct (Candidate_cons _ _ Hc) as (_ & Hc1 & _).
    destruct (Candidate_cons _ _ Hc1) as (_ & Hc2 & _).
    assert (Hincl : incl (points_of rest) inside).
    { intros p Hp. apply in_map_iff in Hp. destruct Hp as (i & <- & Hi).
      apply filter_In. pose proof (Hlater i Hi). split.
      - apply points_after_In; lia.
      - apply Hex. right. exact Hi. }
    pose proof (NoDup_incl_length (points_of_NoDup rest Hc2) Hincl) as Hle.
    cbn [length] in Hsize.
    change (points_of (i0 :: i1 :: rest))
      with (lattice_point i0 :: lattice_point i1 :: points_of rest).
    f_equal. f_equal.
    apply sorted_same_members.
    + apply points_of_sorted, Hc2.
    + apply StronglySorted_filter, StronglySorted_skipn, all_points_sorted.
    + exact Hincl.
    + apply NoDup_length_incl; [apply points_of_NoDup, Hc2|lia|exact Hincl].
  - pose proof (others_NoDup i0 i1 rest Hc) as Hnd.
    pose proof (NoDup_incl_length Hnd (no_basis_multiples i0 i1 rest Hfind)) as Hle.
    rewrite length_map in Hle. cbn [length] in Hle. lia.
Qed.

Lemma accepted_listed (s : list Z) : In s (accepted 0 [] 9) -> In s plane_list.
Proof.
  intros Hin. destruct (proj1 (accepted_root s) Hin) as (Hc & Hlen & Hex).
  destruct s as [|i0 [|i1 rest]]; try discriminate Hlen.
  injection Hlen as Hlen.
  destruct (accepted_plane_points i0 i1 rest Hc Hlen Hex) as (ik & Hik & Hu & Hpts).
  destruct (candidate_bounds i0 i1 rest Hc) as (H0 & H1 & Hlater).
  pose proof (lattice_listed i0 i1 ik H0 (Hlater ik Hik)) as Hl.
  unfold triple_listed in Hl. rewrite Hu in Hl. cbv zeta in Hl.
  rewrite <- Hpts in Hl.
  replace (length (points_of (i0 :: i1 :: rest)) =? 9)%nat with true in Hl
    by (unfold points_of; rewrite length_map; cbn [length]; rewrite Hlen; reflexivity).
  apply existsb_exists in Hl. destruct Hl as (pts & Hpl & Heq).
  apply points_eqb_eq in Heq. apply in_map_iff in Hpl. destruct Hpl as (s' & <- & Hs').
  destruct (plane_list_accepted s' Hs') as (Hc' & _ & _).
  rewrite (points_of_injective _ _ (proj1 Hc) (proj1 Hc') Heq). exact Hs'.
Qed.

Lemma sorted_seqs_same_members (l1 : list (list Z)) :
  forall l2, StronglySorted seq_lt l1 -> StronglySorted seq_lt l2 ->
             incl l1 l2 -> incl l2 l1 -> l1 = l2.
Proof.
  induction l1 as [|a l1 IH]; intros l2 S1 S2 I12 I21.
  - destruct l2 as [|b l2]; [reflexivity|]. destruct (I21 b (or_introl eq_refl)).
  - destruct l2 as [|b l2]; [destruct (I12 a (or_introl eq_refl))|].
    inversion S1 as [|? ? S1' F1]; subst. inversion S2 as [|? ? S2' F2]; subst.
    rewrite Forall_forall in F1, F2.
    assert (Hab : a = b).
    { destruct (I12 a (or_introl eq_refl)) as [E|Ha]; [symmetry; exact E|].
      destruct (I21 b (or_introl eq_refl)) as [E|Hb]; [exact E|].
      exfalso. apply (seq_lt_irrefl a).
      eapply seq_lt_trans; [apply F1, Hb|apply F2, Ha]. }
    subst b. f_equal. apply IH; try assumption.
    + intros x Hx. destruct (I12 x (or_intror Hx)) as [E|H]; [|exact H].
      subst x. destruct (seq_lt_irrefl a). apply F1, Hx.
    + intros x Hx. destruct (I21 x (or_intror Hx)) as [E|H]; [|exact H].
      subst x. destruct (seq_lt_irrefl a). apply F2, Hx.
Qed.

Lemma accepted_plane_list : accepted 0 [] 9 = plane_list.
Proof.
  apply sorted_seqs_same_members.
  - apply accepted_sorted. lia.
  - exact plane_list_sorted.
  - intros s. apply accepted_listed.
  - intros s Hs. apply accepted_root. apply plane_list_accepted, Hs.
Qed.

Lemma origin_is_40 (i : Z) :
  PointIndex i -> array_equal (lattice_point i) (Vec 0 0 0 0) = (40 =? i).
Proof.
  intros H. change (Vec 0 0 0 0) with (lattice_point 40).
  destruct (Z.eqb_spec 40 i) as [<-|Hne].
  - apply array_equal_eq. reflexivity.
  - destruct (array_equal (lattice_point i) (lattice_point 40)) eqn:E; [|reflexivity].
    apply array_equal_eq in E. exfalso. apply Hne. symmetry.
    apply lattice_point_injective; [exact H|unfold PointIndex; lia|exact E].
Qed.

Lemma through_origin_index (s : list Z) :
  Forall PointIndex s -> through_origin (points_of s) = existsb (Z.eqb 40) s.
Proof.
  induction 1 as [|i s Hi _ IH]; [reflexivity|].
  unfold through_origin in *. cbn [points_of map existsb].
  rewrite (origin_is_40 i Hi). f_equal. exact IH.
Qed.

Lemma root_run : find_planes 0 [] 9 =
  Run (flat_map (fun s => announce (points_of s)) plane_list) None.
Proof.
  rewrite (find_planes_accepted 9 0 []) by (try constructor; lia).
  rewrite accepted_plane_list. reflexivity.
Qed.

Lemma root_yields : yields (find_planes 0 [] 9) = map points_of plane_list.
Proof.
  rewrite (yields_accepted 0 [] 9) by (try constructor; lia).
  rewrite accepted_plane_list. reflexivity.
Qed.

Lemma plane_list_indices : Forall (Forall PointIndex) plane_list.
Proof.
  rewrite <- accepted_plane_list.
  eapply Forall_impl; [|exact accepted_root_candidates]. cbn. intros s H. apply H.
Qed.

Lemma filter_map_points_of (l : list (list Z)) :
  Forall (Forall PointIndex) l ->
  filter through_origin (map points_of l) =
  map points_of (filter (existsb (Z.eqb 40)) l).
Proof.
  induction 1 as [|s l Hs _ IH]; [reflexivity|].
  cbn [map filter]. rewrite (through_origin_index s Hs), IH.
  destruct (existsb (Z.eqb 40) s); reflexivity.
Qed.

(** X10: [find_planes()] yields 154 planes, those of [plane_list] in its
    order; 58 of them hold the origin (0, 0, 0, 0), which are the planes
    whose index sequence holds the index 40. *)
Theorem find_planes_counts :
  yields (find_planes 0 [] 9) = map points_of plane_list /\
  length (yields (find_planes 0 [] 9)) = 154%nat /\
  filter through_origin (yields (find_planes 0 [] 9)) =
    map points_of (filter (existsb (Z.eqb 40)) plane_list) /\
  length (filter through_origin (yields (find_planes 0 [] 9))) = 58%nat.
Proof.
  rewrite root_yields, (filter_map_points_of _ plane_list_indices), !length_map.
  repeat split; reflexivity.
Qed.

(** ** The script *)

(** X11: the script ends without an exception; it writes 154 dots and the
    count 154 on one line, then the 9 points of each plane and a line of
    15 dashes, then the count 58 of the planes through the origin. *)
Theorem script_output :
  uncaught script = None /\
  stdout script =
    (String.concat "" (repeat "." 154) ++ line "154" ++
     listing (map points_of plane_list) ++
     line "Planes through origin: 58")%string.
Proof.
  unfold script. rewrite root_run. split; vm_compute; reflexivity.
Qed.

(** ** The two tests on 9 points *)

(** X12: on a candidate of 9 indices the fast filter and the exact test
    give the same answer. *)
Theorem tests_agree_on_nonets (s : list Z) :
  Candidate s -> length s = 9%nat ->
  is_solution_subseq_fast s = is_solution_subseq s.
Proof.
  intros Hc Hlen.
  rewrite (fast_few_deltas s (proj1 Hc)), (exact_exact_points s (proj1 Hc)). f_equal.
  destruct (exact_points (points_of s)) eqn:E.
  - apply exact_few_deltas; assumption.
  - destruct (few_deltas (points_of s)) eqn:F; [|reflexivity].
    apply few_deltas_coplanar in F. apply (exact_points_coplanar s Hc) in F.
    rewrite F in E. discriminate E.
Qed.

Lemma tests_agree_on_nonets_witness :
  is_solution_subseq_fast [0; 1; 2; 3; 4; 5; 6; 7; 80] = Ok false /\
  is_solution_subseq [0; 1; 2; 3; 4; 5; 6; 7; 80] = Ok false.
Proof.
  assert (Hc : Candidate [0; 1; 2; 3; 4; 5; 6; 7; 80]).
  { split; [repeat constructor; unfold PointIndex; lia|].
    repeat (constructor; [|repeat (constructor; try lia)]). constructor. }
  assert (He : is_solution_subseq [0; 1; 2; 3; 4; 5; 6; 7; 80] = Ok false)
    by (vm_compute; reflexivity).
  split; [|exact He].
  rewrite (tests_agree_on_nonets _ Hc eq_refl). exact He.
Defined.

(** ** The index of a point *)

Lemma digits_check_ok (i : Z) : PointIndex i -> digits_check i = true.
Proof.
  intros Hi.
  assert (H : forallb digits_check (range 0 81) = true) by (vm_compute; reflexivity).
  apply (range_forallb _ _ _ H). unfold PointIndex in Hi. lia.
Qed.

(** X13: the point of an index has the digits of the index in base 3, less
    1, as its components; the opposite point has the mirrored index; the
    order of the points is the order of their indices; and the index of a
    point of the cube is read off its components. *)
Theorem lattice_point_digits :
  (forall i, PointIndex i ->
     lattice_point i = Vec (i / 27 - 1) (i / 9 mod 3 - 1) (i / 3 mod 3 - 1) (i mod 3 - 1) /\
     lattice_point (80 - i) = vneg (lattice_point i)) /\
  (forall i j, PointIndex i -> PointIndex j ->
     (lex_lt (lattice_point i) (lattice_point j) <-> i < j)) /\
  (forall p, in_cube p ->
     indexOf p = Some (27 * (v0 p + 1) + 9 * (v1 p + 1) + 3 * (v2 p + 1) + (v3 p + 1))).
Proof.
  split; [|split].
  - intros i Hi. pose proof (digits_check_ok i Hi) as H. unfold digits_check in H.
    apply andb_prop in H. destruct H as [H _]. apply andb_prop in H.
    destruct H as [H1 H2]. split; apply array_equal_eq; assumption.
  - intros i j Hi Hj. unfold PointIndex in Hi, Hj. split.
    + intros Hlt. destruct (Z.lt_trichotomy i j) as [H|[H|H]]; [exact H| |].
      * subst j. destruct (lex_lt_irrefl _ Hlt).
      * exfalso. apply (lex_lt_irrefl (lattice_point i)).
        eapply lex_lt_trans; [exact Hlt|]. apply lattice_point_mono; lia.
    + intros Hlt. apply lattice_point_mono; lia.
  - intros p Hp. destruct (in_cube_lattice_point p Hp) as (i & Hi & <-).
    rewrite (indexOf_lattice_point i Hi). f_equal.
    pose proof (digits_check_ok i Hi) as H. unfold digits_check in H.
    apply andb_prop in H. destruct H as [_ H]. apply Z.eqb_eq in H. symmetry. exact H.
Qed.

Lemma lattice_point_digits_witness :
  lattice_point 40 = Vec 0 0 0 0 /\ indexOf (Vec 1 0 (-1) 1) = Some 65.
Proof.
  assert (H40 : PointIndex 40) by (unfold PointIndex; lia).
  assert (Hc : in_cube (Vec 1 0 (-1) 1)) by (unfold in_cube; cbn; lia).
  split.
  - exact (proj1 (proj1 lattice_point_digits 40 H40)).
  - exact (proj2 (proj2 lattice_point_digits) _ Hc).
Defined.
